(** * User controller of the gallery API: profile and favorite handlers

    A shallow embedding of [src/api/controllers/userController.ts].  The
    relational store is a record of finite maps and sets, the Express
    response object is the list of invocations of the response helpers, and
    the handlers are written in a small state-and-exception monad that
    follows the [try]/[catch] and [sequelize.transaction] structure of the
    source. *)

From stdpp Require Import gmap strings list fin_maps fin_sets.
From Stdlib Require Import ZArith Lia.

Local Open Scope Z_scope.

(** ** Data model *)

(** Modelled from the spec: the type of [req.userData] is declared outside
    this controller; the spec gives a user an opaque identity [id].  The
    role is what an authorization service can look at. *)
Record UserData := mkUserData {
  user_id : string;
  user_role : string
}.

(** A row of the Theme table, without its primary key [id], which is the key
    of the table ([ThemeData] of the source, plus the owner column read by
    [getUserThemes]). *)
Record Theme := mkTheme {
  theme_name : string;
  theme_description : string;
  theme_favoritesCount : Z;
  theme_versionsCount : Z;
  theme_userId : string
}.

(** Modelled from the spec: the Plugin model is declared outside this
    controller; the spec gives it the columns of a theme. *)
Record Plugin := mkPlugin {
  plugin_name : string;
  plugin_description : string;
  plugin_favoritesCount : Z;
  plugin_versionsCount : Z;
  plugin_userId : string
}.

(** A join row [{ userId, id }] of FavoriteTheme or FavoritePlugin: the pair
    of the user and of the favorited entity.  The spec keys the join tables
    by this pair, hence a table is a finite set of rows. *)
Abbreviation FavoriteRow := (string * string)%type.

Definition row_userId (r : FavoriteRow) : string := r.1.
Definition row_id (r : FavoriteRow) : string := r.2.

Record Db := mkDb {
  themes : gmap string Theme;
  favoriteThemes : gset FavoriteRow;
  plugins : gmap string Plugin;
  favoritePlugins : gset FavoriteRow
}.

(** ** Requests and responses *)

(** The parts of an Express request the handlers read.  A query parameter
    and the session user may be [undefined]. *)
Record Request := mkRequest {
  userData : UserData;
  query_userId : option string;
  session_userId : option string;
  body_themeId : string;
  body_pluginId : string;
  params_themeId : string;
  params_pluginId : string
}.

Inductive Payload :=
| NoData
| EmptyObject
| UserPayload (u : UserData)
| ThemesPayload (rows : list (string * Theme))
| FavoriteThemesPayload (rows : list (FavoriteRow * option Theme))
| FavoritePluginsPayload (rows : list (FavoriteRow * option Plugin)).

Record Response := mkResponse {
  status : Z;
  payload : Payload;
  message : string
}.

(** The database operations a handler issues, each of which may fail. *)
Inductive DbOp :=
| OpBegin | OpCommit
| OpFindAll | OpFindByPk | OpFindOne
| OpCreate | OpIncrement | OpDestroy | OpDecrement.

Inductive Exn :=
| DbFailure (op : DbOp)
| UniqueViolation
| HeadersAlreadySent.

(** The state a handler runs in: the database, the invocations of
    [sendSuccessResponse] and [sendErrorResponse] on [res] in order (the
    client receives the first), the calls of [Logger.error], and, as ghost
    state, the exceptions raised so far. *)
Record World := mkWorld {
  db : Db;
  res : list Response;
  logged : list (string * Exn);
  raised : list Exn
}.

Definition initWorld (d : Db) : World :=
  {| db := d; res := []; logged := []; raised := [] |}.

Definition statuses (w : World) : list Z := status <$> res w.

(** ** The handler monad *)

Inductive Outcome (A : Type) :=
| Returned (a : A)
| Thrown (e : Exn).
Arguments Returned {A} a.
Arguments Thrown {A} e.

Definition Handler (A : Type) : Type := World → Outcome A * World.

Definition ret {A} (a : A) : Handler A := λ w, (Returned a, w).

Definition bind {A B} (c : Handler A) (k : A → Handler B) : Handler B :=
  λ w, match c w with
       | (Returned a, w') => k a w'
       | (Thrown e, w') => (Thrown e, w')
       end.

Definition throw {A} (e : Exn) : Handler A :=
  λ w, (Thrown e,
        {| db := db w; res := res w; logged := logged w;
           raised := raised w ++ [e] |}).

(** [try { body } catch (error) { handler error }] *)
Definition tryCatch {A} (body : Handler A) (handler : Exn → Handler A)
  : Handler A :=
  λ w, match body w with
       | (Returned a, w') => (Returned a, w')
       | (Thrown e, w') => handler e w'
       end.

Declare Scope handler_scope.
Delimit Scope handler_scope with handler.
Notation "'let!' x := c 'in' k" := (bind c (λ x, k))
  (at level 10, x name, c at level 100, k at level 200) : handler_scope.
Notation "c ;; k" := (bind c (λ _, k))
  (at level 100, k at level 200, right associativity) : handler_scope.

Definition getDb : Handler Db := λ w, (Returned (db w), w).

Definition setDb (d : Db) : Handler unit :=
  λ w, (Returned tt,
        {| db := d; res := res w; logged := logged w; raised := raised w |}).

(** The final state of a handler started on a fresh response object. *)
Definition run {A} (h : Handler A) (d : Db) : World := (h (initWorld d)).2.

(** ** Row updates *)

Definition themeIncrement (by_ : Z) (t : Theme) : Theme :=
  {| theme_name := theme_name t;
     theme_description := theme_description t;
     theme_favoritesCount := theme_favoritesCount t + by_;
     theme_versionsCount := theme_versionsCount t;
     theme_userId := theme_userId t |}.

Definition pluginIncrement (by_ : Z) (p : Plugin) : Plugin :=
  {| plugin_name := plugin_name p;
     plugin_description := plugin_description p;
     plugin_favoritesCount := plugin_favoritesCount p + by_;
     plugin_versionsCount := plugin_versionsCount p;
     plugin_userId := plugin_userId p |}.

Definition withThemes (d : Db) (m : gmap string Theme) : Db :=
  {| themes := m; favoriteThemes := favoriteThemes d;
     plugins := plugins d; favoritePlugins := favoritePlugins d |}.

Definition withFavoriteThemes (d : Db) (s : gset FavoriteRow) : Db :=
  {| themes := themes d; favoriteThemes := s;
     plugins := plugins d; favoritePlugins := favoritePlugins d |}.

Definition withPlugins (d : Db) (m : gmap string Plugin) : Db :=
  {| themes := themes d; favoriteThemes := favoriteThemes d;
     plugins := m; favoritePlugins := favoritePlugins d |}.

Definition withFavoritePlugins (d : Db) (s : gset FavoriteRow) : Db :=
  {| themes := themes d; favoriteThemes := favoriteThemes d;
     plugins := plugins d; favoritePlugins := s |}.

(** ** Queries *)

(** [SELECT * FROM Theme WHERE userId = ?] *)
Definition themesWhereUserId (userId : string) (d : Db)
  : list (string * Theme) :=
  map_to_list (filter (λ kv, theme_userId kv.2 = userId) (themes d)).

(** The favorite rows of a user, each with the entity it references when
    that entity exists ([include: [Theme]], a left outer join). *)
Definition favoriteThemesWhereUserId (userId : string) (d : Db)
  : list (FavoriteRow * option Theme) :=
  (λ r, (r, themes d !! row_id r)) <$>
  elements (filter (λ r, row_userId r = userId) (favoriteThemes d)).

Definition favoritePluginsWhereUserId (userId : string) (d : Db)
  : list (FavoriteRow * option Plugin) :=
  (λ r, (r, plugins d !! row_id r)) <$>
  elements (filter (λ r, row_userId r = userId) (favoritePlugins d)).

(** ** The controller *)

Section Controller.

(** [checkIsAdminUser] of [services/authorization], which is declared
    outside this controller. *)
Variable checkIsAdminUser : UserData → bool.

(** Which database operations fail in the run at hand. *)
Variable fails : DbOp → bool.

(** Whether a response helper raises when [res] has been answered already
    (Express raises; the helpers are declared outside this controller). *)
Variable headersSentThrows : bool.

Local Open Scope handler_scope.

(** *** Response helpers and the logger *)

(** Modelled from the spec: [sendSuccessResponse] and [sendErrorResponse]
    of [utils/responseUtils] are declared outside this controller; the spec
    has them answer with a JSON success or error envelope and an HTTP status
    code.  Every invocation is recorded on [res]. *)
Definition send (r : Response) : Handler unit :=
  λ w,
    let w' := {| db := db w; res := res w ++ [r]; logged := logged w;
                 raised := raised w |} in
    match res w with
    | [] => (Returned tt, w')
    | _ :: _ =>
        if headersSentThrows then throw HeadersAlreadySent w'
        else (Returned tt, w')
    end.

Definition sendSuccessResponse (code : Z) (data : Payload) (msg : string)
  : Handler unit :=
  send {| status := code; payload := data; message := msg |}.

Definition sendErrorResponse (code : Z) (msg : string) : Handler unit :=
  send {| status := code; payload := NoData; message := msg |}.

(** Modelled from the spec: [Logger.error] is declared outside this
    controller; the spec has unexpected failures logged. *)
Definition Logger_error (msg : string) (e : Exn) : Handler unit :=
  λ w, (Returned tt,
        {| db := db w; res := res w; logged := logged w ++ [(msg, e)];
           raised := raised w |}).

(** *** The ORM *)

(** Modelled from the spec: the models and [sequelize] are declared outside
    this controller; the spec delegates query execution and transactions to
    the relational database.  An operation first fails or not, as [fails]
    has it, and then reads or writes the tables. *)
Definition dbCall (op : DbOp) : Handler unit :=
  if fails op then throw (DbFailure op) else ret tt.

(** [sequelize.transaction(callback)]: the writes of the callback are kept
    when it returns and the commit succeeds, and undone when it throws or
    the commit fails; the exception is passed on.  What the callback did to
    the response object and the log stays. *)
Definition rollback (before after : World) : World :=
  {| db := db before; res := res after; logged := logged after;
     raised := raised after |}.

Definition transaction {A} (callback : Handler A) : Handler A :=
  λ w,
    match dbCall OpBegin w with
    | (Thrown e, w0) => (Thrown e, w0)
    | (Returned _, w0) =>
        match callback w0 with
        | (Thrown e, w1) => (Thrown e, rollback w w1)
        | (Returned a, w1) =>
            match dbCall OpCommit w1 with
            | (Thrown e, w2) => (Thrown e, rollback w w2)
            | (Returned _, w2) => (Returned a, w2)
            end
        end
    end.

Definition Theme_findAll (userId : string)
  : Handler (list (string * Theme)) :=
  dbCall OpFindAll ;;
  let! d := getDb in
  ret (themesWhereUserId userId d).

Definition Theme_findByPk (id : string) : Handler (option Theme) :=
  dbCall OpFindByPk ;;
  let! d := getDb in
  ret (themes d !! id).

Definition Theme_increment (id : string) (by_ : Z) : Handler unit :=
  dbCall OpIncrement ;;
  let! d := getDb in
  setDb (withThemes d (alter (themeIncrement by_) id (themes d))).

Definition Theme_decrement (id : string) (by_ : Z) : Handler unit :=
  dbCall OpDecrement ;;
  let! d := getDb in
  setDb (withThemes d (alter (themeIncrement (- by_)) id (themes d))).

Definition Plugin_findByPk (id : string) : Handler (option Plugin) :=
  dbCall OpFindByPk ;;
  let! d := getDb in
  ret (plugins d !! id).

Definition Plugin_increment (id : string) (by_ : Z) : Handler unit :=
  dbCall OpIncrement ;;
  let! d := getDb in
  setDb (withPlugins d (alter (pluginIncrement by_) id (plugins d))).

Definition Plugin_decrement (id : string) (by_ : Z) : Handler unit :=
  dbCall OpDecrement ;;
  let! d := getDb in
  setDb (withPlugins d (alter (pluginIncrement (- by_)) id (plugins d))).

(** [FavoriteTheme.findAll({ where: { userId }, include: [Theme] })] *)
Definition FavoriteTheme_findAll (userId : string)
  : Handler (list (FavoriteRow * option Theme)) :=
  dbCall OpFindAll ;;
  let! d := getDb in
  ret (favoriteThemesWhereUserId userId d).

Definition FavoriteTheme_findOne (userId id : string)
  : Handler (option FavoriteRow) :=
  dbCall OpFindOne ;;
  let! d := getDb in
  ret (if decide ((userId, id) ∈ favoriteThemes d)
       then Some (userId, id) else None).

Definition FavoriteTheme_create (userId id : string) : Handler unit :=
  dbCall OpCreate ;;
  let! d := getDb in
  if decide ((userId, id) ∈ favoriteThemes d) then throw UniqueViolation
  else setDb (withFavoriteThemes d (favoriteThemes d ∪ {[ (userId, id) ]})).

Definition FavoriteTheme_destroy (r : FavoriteRow) : Handler unit :=
  dbCall OpDestroy ;;
  let! d := getDb in
  setDb (withFavoriteThemes d (favoriteThemes d ∖ {[ r ]})).

Definition FavoritePlugin_findAll (userId : string)
  : Handler (list (FavoriteRow * option Plugin)) :=
  dbCall OpFindAll ;;
  let! d := getDb in
  ret (favoritePluginsWhereUserId userId d).

Definition FavoritePlugin_findOne (userId id : string)
  : Handler (option FavoriteRow) :=
  dbCall OpFindOne ;;
  let! d := getDb in
  ret (if decide ((userId, id) ∈ favoritePlugins d)
       then Some (userId, id) else None).

Definition FavoritePlugin_create (userId id : string) : Handler unit :=
  dbCall OpCreate ;;
  let! d := getDb in
  if decide ((userId, id) ∈ favoritePlugins d) then throw UniqueViolation
  else setDb (withFavoritePlugins d (favoritePlugins d ∪ {[ (userId, id) ]})).

Definition FavoritePlugin_destroy (r : FavoriteRow) : Handler unit :=
  dbCall OpDestroy ;;
  let! d := getDb in
  setDb (withFavoritePlugins d (favoritePlugins d ∖ {[ r ]})).

(** *** Authorization of the fetch handlers *)

(** JavaScript truthiness of a string that may be [undefined]. *)
Definition truthy (s : option string) : bool :=
  match s with
  | None => false
  | Some v => negb (bool_decide (v = ""%string))
  end.

(** [!queryUserId || queryUserId === sessionUserId || checkIsAdminUser(userData)] *)
Definition mayFetch (req : Request) : bool :=
  negb (truthy (query_userId req))
  || bool_decide (query_userId req = session_userId req)
  || checkIsAdminUser (userData req).

(** *** Fetch handlers *)

Definition getUserProfile (req : Request) : Handler unit :=
  if mayFetch req then
    sendSuccessResponse 200 (UserPayload (userData req))
      "User data fetched successfully."
  else
    sendErrorResponse 403 "Unauthorized access.".

(** The [try] block returns from the handler when it completes; the
    boolean tells whether it did.  The [catch] block is empty. *)
Definition getUserThemes (req : Request) : Handler unit :=
  let! returned :=
    if mayFetch req then
      tryCatch
        (let! rows := Theme_findAll (user_id (userData req)) in
         sendSuccessResponse 200 (ThemesPayload rows)
           "User themes fetched successfully." ;;
         ret true)
        (λ _, ret false)
    else ret false in
  if returned : bool then ret tt
  else sendErrorResponse 403 "Unauthorized access.".

Definition getUserFavoriteThemes (req : Request) : Handler unit :=
  let! returned :=
    if mayFetch req then
      tryCatch
        (let! rows := FavoriteTheme_findAll (user_id (userData req)) in
         sendSuccessResponse 200 (FavoriteThemesPayload rows)
           "User favorite themes fetched successfully." ;;
         ret true)
        (λ _, ret false)
    else ret false in
  if returned : bool then ret tt
  else sendErrorResponse 403 "Unauthorized access.".

Definition getUserFavoritePlugins (req : Request) : Handler unit :=
  let! returned :=
    if mayFetch req then
      tryCatch
        (let! rows := FavoritePlugin_findAll (user_id (userData req)) in
         sendSuccessResponse 200 (FavoritePluginsPayload rows)
           "User favorite plugins fetched successfully." ;;
         ret true)
        (λ _, ret false)
    else ret false in
  if returned : bool then ret tt
  else sendErrorResponse 403 "Unauthorized access.".

(** *** Favorite handlers *)

(** The callback handed to [sequelize.transaction]; its [return]s leave
    the callback only. *)
Definition addUserFavoriteTheme_callback (req : Request) : Handler unit :=
  let themeId := body_themeId req in
  let! theme := Theme_findByPk themeId in
  match theme with
  | None => sendErrorResponse 404 "Theme not found."
  | Some _ =>
      let! existingFavorite :=
        FavoriteTheme_findOne (user_id (userData req)) themeId in
      match existingFavorite with
      | Some _ => sendErrorResponse 400 "Theme already favorited."
      | None =>
          FavoriteTheme_create (user_id (userData req)) themeId ;;
          Theme_increment themeId 1
      end
  end.

Definition addUserFavoriteTheme (req : Request) : Handler unit :=
  tryCatch
    (transaction (addUserFavoriteTheme_callback req) ;;
     sendSuccessResponse 201 EmptyObject
       "Added theme to favorites successfully.")
    (λ error,
      Logger_error "Error adding favorite theme:" error ;;
      sendErrorResponse 500 "Failed to add favorite theme.").

Definition removeUserFavoriteTheme_callback (req : Request) : Handler unit :=
  let themeId := params_themeId req in
  let! existingFavorite :=
    FavoriteTheme_findOne (user_id (userData req)) themeId in
  match existingFavorite with
  | None => sendErrorResponse 404 "Favorite theme not found."
  | Some row =>
      FavoriteTheme_destroy row ;;
      let! theme := Theme_findByPk themeId in
      match theme with
      | Some _ => Theme_decrement themeId 1
      | None => ret tt
      end
  end.

Definition removeUserFavoriteTheme (req : Request) : Handler unit :=
  tryCatch
    (transaction (removeUserFavoriteTheme_callback req) ;;
     sendSuccessResponse 200 EmptyObject
       "Removed theme from favorites successfully.")
    (λ error,
      Logger_error "Error removing favorite theme:" error ;;
      sendErrorResponse 500 "Failed to remove favorite theme.").

Definition addUserFavoritePlugin_callback (req : Request) : Handler unit :=
  let pluginId := body_pluginId req in
  let! plugin := Plugin_findByPk pluginId in
  match plugin with
  | None => sendErrorResponse 404 "Plugin not found."
  | Some _ =>
      let! existingFavorite :=
        FavoritePlugin_findOne (user_id (userData req)) pluginId in
      match existingFavorite with
      | Some _ => sendErrorResponse 400 "Plugin already favorited."
      | None =>
          FavoritePlugin_create (user_id (userData req)) pluginId ;;
          Plugin_increment pluginId 1
      end
  end.

Definition addUserFavoritePlugin (req : Request) : Handler unit :=
  tryCatch
    (transaction (addUserFavoritePlugin_callback req) ;;
     sendSuccessResponse 201 EmptyObject
       "Added plugin to favorites successfully.")
    (λ error,
      Logger_error "Error adding favorite plugin:" error ;;
      sendErrorResponse 500 "Failed to add favorite plugin.").

Definition removeUserFavoritePlugin_callback (req : Request)
  : Handler unit :=
  let pluginId := params_pluginId req in
  let! existingFavorite :=
    FavoritePlugin_findOne (user_id (userData req)) pluginId in
  match existingFavorite with
  | None => sendErrorResponse 404 "Favorite plugin not found."
  | Some row =>
      FavoritePlugin_destroy row ;;
      let! plugin := Plugin_findByPk pluginId in
      match plugin with
      | Some _ => Plugin_decrement pluginId 1
      | None => ret tt
      end
  end.

Definition removeUserFavoritePlugin (req : Request) : Handler unit :=
  tryCatch
    (transaction (removeUserFavoritePlugin_callback req) ;;
     sendSuccessResponse 200 EmptyObject
       "Removed plugin from favorites successfully.")
    (λ error,
      Logger_error "Error removing favorite plugin:" error ;;
      sendErrorResponse 500 "Failed to remove favorite plugin.").

End Controller.


(** ** The counter invariant *)

(** The join rows that reference the entity [id]. *)
Definition referencing (id : string) (rows : gset FavoriteRow)
  : gset FavoriteRow :=
  filter (λ r, row_id r = id) rows.

(** [favoritesCount] of every theme and of every plugin is the number of
    join rows that reference it. *)
Definition countsConsistent (d : Db) : Prop :=
  (∀ id t, themes d !! id = Some t →
     theme_favoritesCount t = Z.of_nat (size (referencing id (favoriteThemes d))))
  ∧ (∀ id p, plugins d !! id = Some p →
     plugin_favoritesCount p = Z.of_nat (size (referencing id (favoritePlugins d)))).

(** The complete writes of the four favorite handlers. *)
Definition themeFavorited (userId id : string) (d : Db) : Db :=
  {| themes := alter (themeIncrement 1) id (themes d);
     favoriteThemes := favoriteThemes d ∪ {[ (userId, id) ]};
     plugins := plugins d; favoritePlugins := favoritePlugins d |}.

Definition themeUnfavorited (userId id : string) (d : Db) : Db :=
  {| themes := alter (themeIncrement (- 1)) id (themes d);
     favoriteThemes := favoriteThemes d ∖ {[ (userId, id) ]};
     plugins := plugins d; favoritePlugins := favoritePlugins d |}.

Definition pluginFavorited (userId id : string) (d : Db) : Db :=
  {| themes := themes d; favoriteThemes := favoriteThemes d;
     plugins := alter (pluginIncrement 1) id (plugins d);
     favoritePlugins := favoritePlugins d ∪ {[ (userId, id) ]} |}.

Definition pluginUnfavorited (userId id : string) (d : Db) : Db :=
  {| themes := themes d; favoriteThemes := favoriteThemes d;
     plugins := alter (pluginIncrement (- 1)) id (plugins d);
     favoritePlugins := favoritePlugins d ∖ {[ (userId, id) ]} |}.

(** An error response is one with a 4xx or 5xx status. *)
Definition isError (r : Response) : Prop := 400 ≤ status r.

(** The response the client receives: the first one sent. *)
Definition delivered (w : World) : option Response := head (res w).

(** A handler had an error outcome when it sent an error response. *)
Definition errorOutcome (w : World) : Prop := ∃ r, r ∈ res w ∧ isError r.

(** An exception was logged and surfaced as 500. *)
Definition loggedAnd500 (w : World) : Prop :=
  logged w ≠ [] ∧ 500 ∈ statuses w.

Definition unauthorized : Response :=
  {| status := 403; payload := NoData; message := "Unauthorized access." |}.

(** The transaction callback has answered the request itself, with 404 or
    with 400. *)
Definition callbackAnswered (w : World) : Prop :=
  status <$> delivered w = Some 404 ∨ status <$> delivered w = Some 400.

(** What the [catch] block of a favorite handler does with an exception:
    the first exception raised is logged under [msg], and the handler
    responds with 500 and the message [failure], its one response. *)
Definition caughtAndLogged (msg failure : string) (w : World) : Prop :=
  ∃ e, head (raised w) = Some e
       ∧ logged w = [(msg, e)]
       ∧ res w = [ {| status := 500; payload := NoData; message := failure |} ].

(** What the empty [catch] block of a fetch handler does with an exception:
    the failed query is not logged and the handler falls through to 403. *)
Definition swallowed (w : World) : Prop :=
  raised w = [DbFailure OpFindAll] ∧ logged w = [] ∧ res w = [unauthorized].

(** The request [req] with another [userId] query parameter. *)
Definition withQuery (req : Request) (q : option string) : Request :=
  {| userData := userData req;
     query_userId := q;
     session_userId := session_userId req;
     body_themeId := body_themeId req;
     body_pluginId := body_pluginId req;
     params_themeId := params_themeId req;
     params_pluginId := params_pluginId req |}.

(** The final state of a handler that only answered [r]. *)
Definition answered (d : Db) (r : Response) : World :=
  {| db := d; res := [r]; logged := []; raised := [] |}.

(** ** Sample data *)

Definition sampleUser : UserData := {| user_id := "u1"; user_role := "user" |}.
Definition sampleAdmin : UserData := {| user_id := "a1"; user_role := "admin" |}.

(** An authorization service that goes by the role. *)
Definition roleIsAdmin (u : UserData) : bool :=
  bool_decide (user_role u = "admin"%string).

Definition sampleTheme (count : Z) : Theme :=
  {| theme_name := "midnight"; theme_description := "A dark theme";
     theme_favoritesCount := count; theme_versionsCount := 1;
     theme_userId := "u1" |}.

Definition samplePlugin (count : Z) : Plugin :=
  {| plugin_name := "markdown"; plugin_description := "Renders markdown";
     plugin_favoritesCount := count; plugin_versionsCount := 1;
     plugin_userId := "u1" |}.

(** One theme and one plugin, favorited by nobody. *)
Definition sampleDb : Db :=
  {| themes := {[ "t1"%string := sampleTheme 0 ]};
     favoriteThemes := ∅;
     plugins := {[ "p1"%string := samplePlugin 0 ]};
     favoritePlugins := ∅ |}.

(** The same, favorited by the sample user. *)
Definition favoritedDb : Db :=
  {| themes := {[ "t1"%string := sampleTheme 1 ]};
     favoriteThemes := {[ ("u1"%string, "t1"%string) ]};
     plugins := {[ "p1"%string := samplePlugin 1 ]};
     favoritePlugins := {[ ("u1"%string, "p1"%string) ]} |}.

(** [sampleDb] after the sample user favorited the theme. *)
Definition favoritedDb_themes_only : Db :=
  {| themes := {[ "t1"%string := sampleTheme 1 ]};
     favoriteThemes := {[ ("u1"%string, "t1"%string) ]};
     plugins := {[ "p1"%string := samplePlugin 0 ]};
     favoritePlugins := ∅ |}.

(** Favorite rows whose theme and plugin are gone. *)
Definition orphanDb : Db :=
  {| themes := ∅;
     favoriteThemes := {[ ("u1"%string, "t1"%string) ]};
     plugins := ∅;
     favoritePlugins := {[ ("u1"%string, "p1"%string) ]} |}.

Definition sampleRequest : Request :=
  {| userData := sampleUser;
     query_userId := None;
     session_userId := Some "u1"%string;
     body_themeId := "t1"; body_pluginId := "p1";
     params_themeId := "t1"; params_pluginId := "p1" |}.

(** A request for a theme and a plugin that do not exist. *)
Definition missingRequest : Request :=
  {| userData := sampleUser;
     query_userId := None;
     session_userId := Some "u1"%string;
     body_themeId := "t9"; body_pluginId := "p9";
     params_themeId := "t9"; params_pluginId := "p9" |}.

Definition adminRequest : Request :=
  {| userData := sampleAdmin;
     query_userId := None;
     session_userId := Some "a1"%string;
     body_themeId := "t1"; body_pluginId := "p1";
     params_themeId := "t1"; params_pluginId := "p1" |}.

Definition noFailure : DbOp → bool := λ _, false.

Definition queryFails : DbOp → bool :=
  λ op, match op with OpFindAll => true | _ => false end.

Definition commitFails : DbOp → bool :=
  λ op, match op with OpCommit => true | _ => false end.

(** ** Serving a sequence of requests *)

(** The endpoints of the controller. *)
Inductive Endpoint :=
| GetUserProfile | GetUserThemes | GetUserFavoriteThemes | GetUserFavoritePlugins
| AddUserFavoriteTheme | RemoveUserFavoriteTheme
| AddUserFavoritePlugin | RemoveUserFavoritePlugin.

(** One incoming call: the endpoint, the request, and which database
    operations fail while it is handled. *)
Record Call := mkCall {
  call_endpoint : Endpoint;
  call_request : Request;
  call_fails : DbOp → bool
}.

Definition dispatch (checkIsAdminUser : UserData → bool)
    (headersSentThrows : bool) (c : Call) : Handler unit :=
  let req := call_request c in
  let fails := call_fails c in
  match call_endpoint c with
  | GetUserProfile => getUserProfile checkIsAdminUser headersSentThrows req
  | GetUserThemes => getUserThemes checkIsAdminUser fails headersSentThrows req
  | GetUserFavoriteThemes =>
      getUserFavoriteThemes checkIsAdminUser fails headersSentThrows req
  | GetUserFavoritePlugins =>
      getUserFavoritePlugins checkIsAdminUser fails headersSentThrows req
  | AddUserFavoriteTheme => addUserFavoriteTheme fails headersSentThrows req
  | RemoveUserFavoriteTheme => removeUserFavoriteTheme fails headersSentThrows req
  | AddUserFavoritePlugin => addUserFavoritePlugin fails headersSentThrows req
  | RemoveUserFavoritePlugin => removeUserFavoritePlugin fails headersSentThrows req
  end.

(** The database after a sequence of calls, each handled on a response
    object of its own, one after the other. *)
Fixpoint serve (checkIsAdminUser : UserData → bool) (headersSentThrows : bool)
    (calls : list Call) (d : Db) : Db :=
  match calls with
  | [] => d
  | c :: rest =>
      serve checkIsAdminUser headersSentThrows rest
        (db (run (dispatch checkIsAdminUser headersSentThrows c) d))
  end.

(** ** What a favorite handler may touch *)

(** Two theme rows that differ in [favoritesCount] at most, and there by
    one at most. *)
Definition sameThemeButCount (t t' : Theme) : Prop :=
  theme_name t' = theme_name t
  ∧ theme_description t' = theme_description t
  ∧ theme_versionsCount t' = theme_versionsCount t
  ∧ theme_userId t' = theme_userId t
  ∧ - 1 ≤ theme_favoritesCount t' - theme_favoritesCount t ≤ 1.

Definition samePluginButCount (p p' : Plugin) : Prop :=
  plugin_name p' = plugin_name p
  ∧ plugin_description p' = plugin_description p
  ∧ plugin_versionsCount p' = plugin_versionsCount p
  ∧ plugin_userId p' = plugin_userId p
  ∧ - 1 ≤ plugin_favoritesCount p' - plugin_favoritesCount p ≤ 1.

(** [d'] differs from [d] at most in the join row [(userId, id)] of
    FavoriteTheme and in the counter of the theme [id]. *)
Definition themeFrame (userId id : string) (d d' : Db) : Prop :=
  plugins d' = plugins d
  ∧ favoritePlugins d' = favoritePlugins d
  ∧ (∀ r, r ≠ (userId, id) → r ∈ favoriteThemes d' ↔ r ∈ favoriteThemes d)
  ∧ (∀ id', id' ≠ id → themes d' !! id' = themes d !! id')
  ∧ match themes d !! id, themes d' !! id with
    | Some t, Some t' => sameThemeButCount t t'
    | None, None => True
    | _, _ => False
    end.

Definition pluginFrame (userId id : string) (d d' : Db) : Prop :=
  themes d' = themes d
  ∧ favoriteThemes d' = favoriteThemes d
  ∧ (∀ r, r ≠ (userId, id) → r ∈ favoritePlugins d' ↔ r ∈ favoritePlugins d)
  ∧ (∀ id', id' ≠ id → plugins d' !! id' = plugins d !! id')
  ∧ match plugins d !! id, plugins d' !! id with
    | Some p, Some p' => samePluginButCount p p'
    | None, None => True
    | _, _ => False
    end.

(** No counter is negative. *)
Definition countsNonNegative (d : Db) : Prop :=
  (∀ id t, themes d !! id = Some t → 0 ≤ theme_favoritesCount t)
  ∧ (∀ id p, plugins d !! id = Some p → 0 ≤ plugin_favoritesCount p).

(** The final state of a handler that answered [r] only, after writing. *)
Definition succeeded (d : Db) (code : Z) (msg : string) : World :=
  answered d {| status := code; payload := EmptyObject; message := msg |}.

(** A request of another user for the same theme and plugin. *)
Definition otherUser : UserData := {| user_id := "u2"; user_role := "user" |}.

Definition otherRequest : Request :=
  {| userData := otherUser;
     query_userId := None;
     session_userId := Some "u2"%string;
     body_themeId := "t1"; body_pluginId := "p1";
     params_themeId := "t1"; params_pluginId := "p1" |}.

(** ** Symbolic execution of the handlers *)

Ltac step_handlers :=
  cbv beta iota zeta delta
    [run initWorld ret bind throw tryCatch getDb setDb
     send sendSuccessResponse sendErrorResponse Logger_error dbCall
     rollback transaction
     Theme_findAll Theme_findByPk Theme_increment Theme_decrement
     Plugin_findByPk Plugin_increment Plugin_decrement
     FavoriteTheme_findAll FavoriteTheme_findOne FavoriteTheme_create
     FavoriteTheme_destroy
     FavoritePlugin_findAll FavoritePlugin_findOne FavoritePlugin_create
     FavoritePlugin_destroy
     getUserProfile getUserThemes getUserFavoriteThemes
     getUserFavoritePlugins
     addUserFavoriteTheme_callback addUserFavoriteTheme
     removeUserFavoriteTheme_callback removeUserFavoriteTheme
     addUserFavoritePlugin_callback addUserFavoritePlugin
     removeUserFavoritePlugin_callback removeUserFavoritePlugin
     withThemes withFavoriteThemes withPlugins withFavoritePlugins
     statuses delivered themes favoriteThemes plugins favoritePlugins
     db res logged raised fst snd app].

(** The scrutinee on which the evaluation of [t] is stuck. *)
Ltac stuck_on t :=
  lazymatch t with
  | match ?x with _ => _ end => stuck_on x
  | (match ?x with _ => _ end) _ => stuck_on x
  | _ => t
  end.

(** Evaluate, and split on what the evaluation is stuck on: whether a
    database operation fails, whether a row exists. *)
Ltac split_handlers :=
  step_handlers;
  repeat (match goal with
          | |- context [match ?x with _ => _ end] =>
              let s := stuck_on x in
              match goal with
              | H : s = _ |- _ => rewrite H
              | _ => destruct s eqn:?
              end
          end;
          step_handlers).

(** Close a goal
    [raised w ≠ [] → ¬ callbackAnswered w → caughtAndLogged msg failure w]
    on an evaluated [w]. *)
Ltac finish_caught :=
  unfold caughtAndLogged, callbackAnswered; step_handlers;
  let Hraised := fresh "Hraised" in
  let Hnot := fresh "Hnot" in
  intros Hraised Hnot;
  first
    [ by destruct Hraised
    | exfalso; apply Hnot; first [left; reflexivity | right; reflexivity]
    | eexists; split; [reflexivity |]; split; reflexivity ].

Ltac finish_swallowed :=
  unfold swallowed; step_handlers; intros Hraised;
  first [ by destruct Hraised | repeat split; reflexivity ].

(** ** The handlers at sample inputs *)

Example add_favorite_theme_succeeds :
  let w := run (addUserFavoriteTheme noFailure true sampleRequest) sampleDb in
  db w = favoritedDb_themes_only ∧ statuses w = [201] ∧ logged w = [].
Proof. cbv zeta. repeat split; vm_compute; reflexivity. Qed.

Example remove_favorite_theme_succeeds :
  let w := run (removeUserFavoriteTheme noFailure true sampleRequest)
             favoritedDb_themes_only in
  db w = sampleDb ∧ statuses w = [200] ∧ logged w = [].
Proof. cbv zeta. repeat split; vm_compute; reflexivity. Qed.

Example add_favorite_plugin_rolls_back :
  let fails := λ op, match op with OpIncrement => true | _ => false end in
  let w := run (addUserFavoritePlugin fails true sampleRequest) sampleDb in
  db w = sampleDb ∧ statuses w = [500]
  ∧ logged w = [("Error adding favorite plugin:"%string, DbFailure OpIncrement)].
Proof. cbv zeta. repeat split; vm_compute; reflexivity. Qed.

Example add_favorite_twice_calls :
  statuses (run (addUserFavoriteTheme noFailure false sampleRequest) favoritedDb)
  = [400; 201]
  ∧ statuses (run (addUserFavoriteTheme noFailure true sampleRequest) favoritedDb)
    = [400; 201; 500].
Proof. split; vm_compute; reflexivity. Qed.

Example admin_fetches_other_user :
  statuses (run (getUserFavoriteThemes roleIsAdmin noFailure true
                   (withQuery adminRequest (Some "u1"%string))) favoritedDb)
  = [200]
  ∧ favoriteThemesWhereUserId "u1" favoritedDb
    = [(("u1"%string, "t1"%string), Some (sampleTheme 1))]
  ∧ favoriteThemesWhereUserId "a1" favoritedDb = [].
Proof. repeat split; vm_compute; reflexivity. Qed.

Section Properties.

Variable fails : DbOp → bool.
Variable headersSentThrows : bool.

(** *** What a favorite handler leaves in the database

    Either nothing, or its complete write. *)

Lemma addUserFavoriteTheme_db req d :
  let w := run (addUserFavoriteTheme fails headersSentThrows req) d in
  (db w = d)
  ∨ (is_Some (themes d !! body_themeId req)
     ∧ ((user_id (userData req), body_themeId req) ∉ favoriteThemes d)
     ∧ db w = themeFavorited (user_id (userData req)) (body_themeId req) d
     ∧ res w = [ {| status := 201; payload := EmptyObject;
                    message := "Added theme to favorites successfully." |} ]).
Proof.
  destruct d as [th fth pl fpl].
  split_handlers; auto.
Qed.

Lemma removeUserFavoriteTheme_db req d :
  let w := run (removeUserFavoriteTheme fails headersSentThrows req) d in
  (db w = d)
  ∨ ((user_id (userData req), params_themeId req) ∈ favoriteThemes d
     ∧ db w = themeUnfavorited (user_id (userData req)) (params_themeId req) d
     ∧ res w = [ {| status := 200; payload := EmptyObject;
                    message := "Removed theme from favorites successfully." |} ]).
Proof.
  destruct d as [th fth pl fpl].
  split_handlers; auto.
  right. unfold themeUnfavorited. cbn [themes favoriteThemes plugins favoritePlugins].
  rewrite alter_id; [auto | congruence].
Qed.

Lemma addUserFavoritePlugin_db req d :
  let w := run (addUserFavoritePlugin fails headersSentThrows req) d in
  (db w = d)
  ∨ (is_Some (plugins d !! body_pluginId req)
     ∧ ((user_id (userData req), body_pluginId req) ∉ favoritePlugins d)
     ∧ db w = pluginFavorited (user_id (userData req)) (body_pluginId req) d
     ∧ res w = [ {| status := 201; payload := EmptyObject;
                    message := "Added plugin to favorites successfully." |} ]).
Proof.
  destruct d as [th fth pl fpl].
  split_handlers; auto.
Qed.

Lemma removeUserFavoritePlugin_db req d :
  let w := run (removeUserFavoritePlugin fails headersSentThrows req) d in
  (db w = d)
  ∨ ((user_id (userData req), params_pluginId req) ∈ favoritePlugins d
     ∧ db w = pluginUnfavorited (user_id (userData req)) (params_pluginId req) d
     ∧ res w = [ {| status := 200; payload := EmptyObject;
                    message := "Removed plugin from favorites successfully." |} ]).
Proof.
  destruct d as [th fth pl fpl].
  split_handlers; auto.
  right. unfold pluginUnfavorited. cbn [themes favoriteThemes plugins favoritePlugins].
  rewrite alter_id; [auto | congruence].
Qed.

End Properties.

(** *** Counting the rows that reference an entity *)

Lemma referencing_insert (id : string) (k : FavoriteRow) (rows : gset FavoriteRow) :
  k ∉ rows →
  size (referencing id (rows ∪ {[ k ]}))
  = if decide (row_id k = id) then S (size (referencing id rows))
    else size (referencing id rows).
Proof.
  intros Hk. unfold referencing.
  destruct (decide (row_id k = id)) as [Heq | Hne].
  - replace (filter (λ r, row_id r = id) (rows ∪ {[ k ]}))
      with (filter (λ r, row_id r = id) rows ∪ {[ k ]}).
    + rewrite size_union, size_singleton; [lia |].
      intros r. rewrite elem_of_filter, elem_of_singleton.
      intros [_ Hr] ->. contradiction.
    + apply set_eq. intros r.
      rewrite elem_of_filter, !elem_of_union, elem_of_filter,
        elem_of_singleton.
      intuition (subst; auto).
  - f_equal. apply set_eq. intros r.
    rewrite !elem_of_filter, elem_of_union, elem_of_singleton.
    split.
    + intros [Hp [Hr | ->]]; [auto | contradiction].
    + intros [Hp Hr]. auto.
Qed.

Lemma referencing_delete (id : string) (k : FavoriteRow) (rows : gset FavoriteRow) :
  k ∈ rows →
  size (referencing id rows)
  = if decide (row_id k = id) then S (size (referencing id (rows ∖ {[ k ]})))
    else size (referencing id (rows ∖ {[ k ]})).
Proof.
  intros Hk.
  rewrite <- referencing_insert.
  - f_equal. f_equal. apply set_eq. intros r.
    rewrite elem_of_union, elem_of_difference, elem_of_singleton.
    destruct (decide (r = k)); intuition (subst; auto).
  - rewrite elem_of_difference, elem_of_singleton. intuition.
Qed.

(** *** The complete writes keep the counters right *)

Lemma themeFavorited_consistent userId id d :
  (userId, id) ∉ favoriteThemes d →
  countsConsistent d → countsConsistent (themeFavorited userId id d).
Proof.
  intros Hnew [Hth Hpl]. split; [| exact Hpl].
  intros id' t'. cbn [themes favoriteThemes themeFavorited].
  rewrite lookup_alter_Some, referencing_insert by done.
  unfold row_id at 1. cbn [snd].
  intros [(-> & t & Ht & ->) | (Hne & Ht)].
  - rewrite decide_True by done. cbn [theme_favoritesCount themeIncrement].
    rewrite (Hth _ _ Ht). lia.
  - rewrite decide_False by done. eauto.
Qed.

Lemma themeUnfavorited_consistent userId id d :
  (userId, id) ∈ favoriteThemes d →
  countsConsistent d → countsConsistent (themeUnfavorited userId id d).
Proof.
  intros Hold [Hth Hpl]. split; [| exact Hpl].
  intros id' t'. cbn [themes favoriteThemes themeUnfavorited].
  rewrite lookup_alter_Some.
  intros [(-> & t & Ht & ->) | (Hne & Ht)].
  - cbn [theme_favoritesCount themeIncrement].
    rewrite (Hth _ _ Ht), (referencing_delete id' _ _ Hold).
    unfold row_id at 1. cbn [snd]. rewrite decide_True by done. lia.
  - rewrite (Hth _ _ Ht), (referencing_delete id' _ _ Hold).
    unfold row_id at 1. cbn [snd]. rewrite decide_False by done. done.
Qed.

Lemma pluginFavorited_consistent userId id d :
  (userId, id) ∉ favoritePlugins d →
  countsConsistent d → countsConsistent (pluginFavorited userId id d).
Proof.
  intros Hnew [Hth Hpl]. split; [exact Hth |].
  intros id' p'. cbn [plugins favoritePlugins pluginFavorited].
  rewrite lookup_alter_Some, referencing_insert by done.
  unfold row_id at 1. cbn [snd].
  intros [(-> & p & Hp & ->) | (Hne & Hp)].
  - rewrite decide_True by done. cbn [plugin_favoritesCount pluginIncrement].
    rewrite (Hpl _ _ Hp). lia.
  - rewrite decide_False by done. eauto.
Qed.

Lemma pluginUnfavorited_consistent userId id d :
  (userId, id) ∈ favoritePlugins d →
  countsConsistent d → countsConsistent (pluginUnfavorited userId id d).
Proof.
  intros Hold [Hth Hpl]. split; [exact Hth |].
  intros id' p'. cbn [plugins favoritePlugins pluginUnfavorited].
  rewrite lookup_alter_Some.
  intros [(-> & p & Hp & ->) | (Hne & Hp)].
  - cbn [plugin_favoritesCount pluginIncrement].
    rewrite (Hpl _ _ Hp), (referencing_delete id' _ _ Hold).
    unfold row_id at 1. cbn [snd]. rewrite decide_True by done. lia.
  - rewrite (Hpl _ _ Hp), (referencing_delete id' _ _ Hold).
    unfold row_id at 1. cbn [snd]. rewrite decide_False by done. done.
Qed.

(** ** Properties of the handlers *)

Lemma success_only_no_error (w : World) code data msg :
  res w = [ {| status := code; payload := data; message := msg |} ] →
  code < 400 → ¬ errorOutcome w.
Proof.
  intros Hres Hcode (r & Hr & Herr). rewrite Hres in Hr.
  apply list_elem_of_singleton in Hr. subst r.
  unfold isError in Herr. cbn [status] in Herr. lia.
Qed.

Section Claims.

Variable checkIsAdminUser : UserData → bool.
Variable fails : DbOp → bool.
Variable headersSentThrows : bool.

(** C1. Starting from a database in which every [favoritesCount] equals the
    number of join rows that reference the entity, each of the four favorite
    handlers ends in a database where this still holds, whichever database
    operations fail: the join row and the counter change together or not at
    all. *)
Theorem favorite_handlers_keep_counts (req : Request) (d : Db) :
  countsConsistent d →
  countsConsistent (db (run (addUserFavoriteTheme fails headersSentThrows req) d))
  ∧ countsConsistent (db (run (removeUserFavoriteTheme fails headersSentThrows req) d))
  ∧ countsConsistent (db (run (addUserFavoritePlugin fails headersSentThrows req) d))
  ∧ countsConsistent (db (run (removeUserFavoritePlugin fails headersSentThrows req) d)).
Proof.
  intros Hd. split; [| split; [| split]].
  - destruct (addUserFavoriteTheme_db fails headersSentThrows req d)
      as [-> | (_ & Hnew & -> & _)]; [done |].
    by apply themeFavorited_consistent.
  - destruct (removeUserFavoriteTheme_db fails headersSentThrows req d)
      as [-> | (Hold & -> & _)]; [done |].
    by apply themeUnfavorited_consistent.
  - destruct (addUserFavoritePlugin_db fails headersSentThrows req d)
      as [-> | (_ & Hnew & -> & _)]; [done |].
    by apply pluginFavorited_consistent.
  - destruct (removeUserFavoritePlugin_db fails headersSentThrows req d)
      as [-> | (Hold & -> & _)]; [done |].
    by apply pluginUnfavorited_consistent.
Qed.

(** C5. Each favorite handler leaves the database either as it found it or
    with its complete write (join row and counter), and whenever it sent an
    error response (404, 400 or 500) the database is as it found it. *)
Theorem favorite_handlers_atomic (req : Request) (d : Db) :
  let u := user_id (userData req) in
  let addT := run (addUserFavoriteTheme fails headersSentThrows req) d in
  let remT := run (removeUserFavoriteTheme fails headersSentThrows req) d in
  let addP := run (addUserFavoritePlugin fails headersSentThrows req) d in
  let remP := run (removeUserFavoritePlugin fails headersSentThrows req) d in
  ((db addT = d ∨ db addT = themeFavorited u (body_themeId req) d)
   ∧ (errorOutcome addT → db addT = d))
  ∧ ((db remT = d ∨ db remT = themeUnfavorited u (params_themeId req) d)
     ∧ (errorOutcome remT → db remT = d))
  ∧ ((db addP = d ∨ db addP = pluginFavorited u (body_pluginId req) d)
     ∧ (errorOutcome addP → db addP = d))
  ∧ ((db remP = d ∨ db remP = pluginUnfavorited u (params_pluginId req) d)
     ∧ (errorOutcome remP → db remP = d)).
Proof.
  cbv zeta. repeat apply conj.
  - destruct (addUserFavoriteTheme_db fails headersSentThrows req d)
      as [-> | (_ & _ & -> & _)]; auto.
  - destruct (addUserFavoriteTheme_db fails headersSentThrows req d)
      as [-> | (_ & _ & _ & Hres)]; [done |].
    intros Herr. by apply success_only_no_error in Hres.
  - destruct (removeUserFavoriteTheme_db fails headersSentThrows req d)
      as [-> | (_ & -> & _)]; auto.
  - destruct (removeUserFavoriteTheme_db fails headersSentThrows req d)
      as [-> | (_ & _ & Hres)]; [done |].
    intros Herr. by apply success_only_no_error in Hres.
  - destruct (addUserFavoritePlugin_db fails headersSentThrows req d)
      as [-> | (_ & _ & -> & _)]; auto.
  - destruct (addUserFavoritePlugin_db fails headersSentThrows req d)
      as [-> | (_ & _ & _ & Hres)]; [done |].
    intros Herr. by apply success_only_no_error in Hres.
  - destruct (removeUserFavoritePlugin_db fails headersSentThrows req d)
      as [-> | (_ & -> & _)]; auto.
  - destruct (removeUserFavoritePlugin_db fails headersSentThrows req d)
      as [-> | (_ & _ & Hres)]; [done |].
    intros Herr. by apply success_only_no_error in Hres.
Qed.

(** C2 (what the code does). When the entity of an add-favorite request does
    not exist and no database operation fails, the handler invokes
    [sendErrorResponse] with 404 inside the transaction callback and then,
    the callback having merely returned, [sendSuccessResponse] with 201. *)
Theorem add_favorite_missing_entity_404_then_201 (req : Request) (d : Db) :
  fails OpBegin = false → fails OpFindByPk = false → fails OpCommit = false →
  (themes d !! body_themeId req = None →
   take 2 (statuses (run (addUserFavoriteTheme fails headersSentThrows req) d))
   = [404; 201])
  ∧ (plugins d !! body_pluginId req = None →
     take 2 (statuses (run (addUserFavoritePlugin fails headersSentThrows req) d))
     = [404; 201]).
Proof.
  destruct d as [th fth pl fpl]. cbn [themes plugins].
  intros HB HF HC. split; intros Hnone; split_handlers; reflexivity.
Qed.

(** C3. When the entity exists and the user has favorited it already, and
    the lookups do not fail, an add-favorite request is answered with 400
    and the database is left as it was. *)
Theorem add_favorite_twice_400 (req : Request) (d : Db) :
  let u := user_id (userData req) in
  fails OpBegin = false → fails OpFindByPk = false → fails OpFindOne = false →
  (is_Some (themes d !! body_themeId req) →
   (u, body_themeId req) ∈ favoriteThemes d →
   let w := run (addUserFavoriteTheme fails headersSentThrows req) d in
   status <$> delivered w = Some 400 ∧ db w = d)
  ∧ (is_Some (plugins d !! body_pluginId req) →
     (u, body_pluginId req) ∈ favoritePlugins d →
     let w := run (addUserFavoritePlugin fails headersSentThrows req) d in
     status <$> delivered w = Some 400 ∧ db w = d).
Proof.
  destruct d as [th fth pl fpl].
  cbn [themes plugins favoriteThemes favoritePlugins].
  cbv zeta. intros HB HF HO.
  split; intros [x Hx] Hrow; split_handlers; (done || contradiction).
Qed.

(** C4. When the user has no favorite row for the entity and the lookup
    does not fail, a remove-favorite request is answered with 404 and the
    database is left as it was. *)
Theorem remove_missing_favorite_404 (req : Request) (d : Db) :
  let u := user_id (userData req) in
  fails OpBegin = false → fails OpFindOne = false →
  ((u, params_themeId req) ∉ favoriteThemes d →
   let w := run (removeUserFavoriteTheme fails headersSentThrows req) d in
   status <$> delivered w = Some 404 ∧ db w = d)
  ∧ ((u, params_pluginId req) ∉ favoritePlugins d →
     let w := run (removeUserFavoritePlugin fails headersSentThrows req) d in
     status <$> delivered w = Some 404 ∧ db w = d).
Proof.
  destruct d as [th fth pl fpl].
  cbn [themes plugins favoriteThemes favoritePlugins].
  cbv zeta. intros HB HO.
  split; intros Hrow; split_handlers; (done || contradiction).
Qed.

(** C10. When the favorite row exists but its parent entity does not, and
    no database operation on the way fails, a remove-favorite request ends
    with the single response 200, the join row deleted and every entity row,
    hence every counter, as it was: no decrement is issued. *)
Theorem remove_favorite_of_missing_entity (req : Request) (d : Db) :
  let u := user_id (userData req) in
  fails OpBegin = false → fails OpFindOne = false → fails OpDestroy = false →
  fails OpFindByPk = false → fails OpCommit = false →
  ((u, params_themeId req) ∈ favoriteThemes d →
   themes d !! params_themeId req = None →
   let w := run (removeUserFavoriteTheme fails headersSentThrows req) d in
   statuses w = [200]
   ∧ db w = withFavoriteThemes d (favoriteThemes d ∖ {[ (u, params_themeId req) ]})
   ∧ logged w = [] ∧ raised w = [])
  ∧ ((u, params_pluginId req) ∈ favoritePlugins d →
     plugins d !! params_pluginId req = None →
     let w := run (removeUserFavoritePlugin fails headersSentThrows req) d in
     statuses w = [200]
     ∧ db w = withFavoritePlugins d (favoritePlugins d ∖ {[ (u, params_pluginId req) ]})
     ∧ logged w = [] ∧ raised w = []).
Proof.
  destruct d as [th fth pl fpl].
  cbn [themes plugins favoriteThemes favoritePlugins].
  cbv zeta. intros HB HO HD HF HC.
  split; intros Hrow Hnone; split_handlers; (done || contradiction).
Qed.

(** *** Fetch handlers *)

Lemma mayFetch_denied (req : Request) :
  truthy (query_userId req) = true →
  query_userId req ≠ session_userId req →
  checkIsAdminUser (userData req) = false →
  mayFetch checkIsAdminUser req = false.
Proof.
  intros Hq Hne Hadm. unfold mayFetch.
  rewrite Hq, Hadm, bool_decide_eq_false_2 by done. reflexivity.
Qed.

Lemma mayFetch_no_query (req : Request) :
  truthy (query_userId req) = false → mayFetch checkIsAdminUser req = true.
Proof. intros Hq. unfold mayFetch. rewrite Hq. reflexivity. Qed.

(** C6. A fetch request that names a user other than the session user, made
    by a user who is not an admin, is answered with 403 and nothing else: no
    data is sent and no query is issued. *)
Theorem fetch_other_user_403 (req : Request) (d : Db) :
  truthy (query_userId req) = true →
  query_userId req ≠ session_userId req →
  checkIsAdminUser (userData req) = false →
  run (getUserProfile checkIsAdminUser headersSentThrows req) d
  = answered d unauthorized
  ∧ run (getUserThemes checkIsAdminUser fails headersSentThrows req) d
    = answered d unauthorized
  ∧ run (getUserFavoriteThemes checkIsAdminUser fails headersSentThrows req) d
    = answered d unauthorized
  ∧ run (getUserFavoritePlugins checkIsAdminUser fails headersSentThrows req) d
    = answered d unauthorized.
Proof.
  intros Hq Hne Hadm.
  pose proof (mayFetch_denied req Hq Hne Hadm) as Hdenied.
  repeat apply conj; split_handlers; reflexivity.
Qed.

(** C8. Without a [userId] query parameter (absent or empty) the fetch
    handlers answer 200 for any user, admin or not, and whatever the session
    user is: the profile handler always, the others when the query does not
    fail. *)
Theorem fetch_without_query_200 (req : Request) (d : Db) :
  let uid := user_id (userData req) in
  truthy (query_userId req) = false →
  fails OpFindAll = false →
  run (getUserProfile checkIsAdminUser headersSentThrows req) d
  = answered d {| status := 200; payload := UserPayload (userData req);
                  message := "User data fetched successfully." |}
  ∧ run (getUserThemes checkIsAdminUser fails headersSentThrows req) d
    = answered d {| status := 200;
                    payload := ThemesPayload (themesWhereUserId uid d);
                    message := "User themes fetched successfully." |}
  ∧ run (getUserFavoriteThemes checkIsAdminUser fails headersSentThrows req) d
    = answered d {| status := 200;
                    payload := FavoriteThemesPayload (favoriteThemesWhereUserId uid d);
                    message := "User favorite themes fetched successfully." |}
  ∧ run (getUserFavoritePlugins checkIsAdminUser fails headersSentThrows req) d
    = answered d {| status := 200;
                    payload := FavoritePluginsPayload (favoritePluginsWhereUserId uid d);
                    message := "User favorite plugins fetched successfully." |}.
Proof.
  intros uid Hq Hfind. subst uid.
  pose proof (mayFetch_no_query req Hq) as Hallowed.
  repeat apply conj; split_handlers; reflexivity.
Qed.

(** What an authorized fetch does: it depends on the request through
    [userData] only. *)
Lemma getUserProfile_authorized (req : Request) (d : Db) :
  mayFetch checkIsAdminUser req = true →
  run (getUserProfile checkIsAdminUser headersSentThrows req) d
  = answered d {| status := 200; payload := UserPayload (userData req);
                  message := "User data fetched successfully." |}.
Proof. intros Hallowed. split_handlers. reflexivity. Qed.

Lemma getUserThemes_authorized (req : Request) (d : Db) :
  mayFetch checkIsAdminUser req = true →
  run (getUserThemes checkIsAdminUser fails headersSentThrows req) d
  = if fails OpFindAll
    then {| db := d; res := [unauthorized]; logged := [];
            raised := [DbFailure OpFindAll] |}
    else answered d
           {| status := 200;
              payload := ThemesPayload
                           (themesWhereUserId (user_id (userData req)) d);
              message := "User themes fetched successfully." |}.
Proof. intros Hallowed. split_handlers; reflexivity. Qed.

Lemma getUserFavoriteThemes_authorized (req : Request) (d : Db) :
  mayFetch checkIsAdminUser req = true →
  run (getUserFavoriteThemes checkIsAdminUser fails headersSentThrows req) d
  = if fails OpFindAll
    then {| db := d; res := [unauthorized]; logged := [];
            raised := [DbFailure OpFindAll] |}
    else answered d
           {| status := 200;
              payload := FavoriteThemesPayload
                           (favoriteThemesWhereUserId (user_id (userData req)) d);
              message := "User favorite themes fetched successfully." |}.
Proof. intros Hallowed. split_handlers; reflexivity. Qed.

Lemma getUserFavoritePlugins_authorized (req : Request) (d : Db) :
  mayFetch checkIsAdminUser req = true →
  run (getUserFavoritePlugins checkIsAdminUser fails headersSentThrows req) d
  = if fails OpFindAll
    then {| db := d; res := [unauthorized]; logged := [];
            raised := [DbFailure OpFindAll] |}
    else answered d
           {| status := 200;
              payload := FavoritePluginsPayload
                           (favoritePluginsWhereUserId (user_id (userData req)) d);
              message := "User favorite plugins fetched successfully." |}.
Proof. intros Hallowed. split_handlers; reflexivity. Qed.

(** C9. Two authorized fetch requests that differ in the [userId] query
    parameter only end in the same state, response included; the profile
    sent is [userData], and the rows sent are those selected by
    [userData.id]. *)
Theorem fetch_independent_of_query
  (req : Request) (q1 q2 : option string) (d : Db) :
  let r1 := withQuery req q1 in
  let r2 := withQuery req q2 in
  let uid := user_id (userData req) in
  mayFetch checkIsAdminUser r1 = true →
  mayFetch checkIsAdminUser r2 = true →
  (run (getUserProfile checkIsAdminUser headersSentThrows r1) d
   = run (getUserProfile checkIsAdminUser headersSentThrows r2) d
   ∧ run (getUserThemes checkIsAdminUser fails headersSentThrows r1) d
     = run (getUserThemes checkIsAdminUser fails headersSentThrows r2) d
   ∧ run (getUserFavoriteThemes checkIsAdminUser fails headersSentThrows r1) d
     = run (getUserFavoriteThemes checkIsAdminUser fails headersSentThrows r2) d
   ∧ run (getUserFavoritePlugins checkIsAdminUser fails headersSentThrows r1) d
     = run (getUserFavoritePlugins checkIsAdminUser fails headersSentThrows r2) d)
  ∧ payload <$> delivered
      (run (getUserProfile checkIsAdminUser headersSentThrows r1) d)
    = Some (UserPayload (userData req))
  ∧ (fails OpFindAll = false →
     payload <$> delivered
       (run (getUserThemes checkIsAdminUser fails headersSentThrows r1) d)
     = Some (ThemesPayload (themesWhereUserId uid d))
     ∧ payload <$> delivered
         (run (getUserFavoriteThemes checkIsAdminUser fails headersSentThrows r1) d)
       = Some (FavoriteThemesPayload (favoriteThemesWhereUserId uid d))
     ∧ payload <$> delivered
         (run (getUserFavoritePlugins checkIsAdminUser fails headersSentThrows r1) d)
       = Some (FavoritePluginsPayload (favoritePluginsWhereUserId uid d))).
Proof.
  intros r1 r2 uid H1 H2.
  rewrite (getUserProfile_authorized r1 d H1),
    (getUserProfile_authorized r2 d H2),
    (getUserThemes_authorized r1 d H1),
    (getUserThemes_authorized r2 d H2),
    (getUserFavoriteThemes_authorized r1 d H1),
    (getUserFavoriteThemes_authorized r2 d H2),
    (getUserFavoritePlugins_authorized r1 d H1),
    (getUserFavoritePlugins_authorized r2 d H2).
  split; [by repeat split |].
  split; [reflexivity |].
  intros ->. by repeat split.
Qed.

(** C7 (as the code has it). In the four favorite handlers, whenever an
    exception is raised and the transaction callback has not answered the
    request itself, the exception is caught and logged and the handler
    responds with 500, its one response.  In the fetch handlers that query
    the database the exception is swallowed: nothing is logged and the
    response is 403.  The profile handler raises nothing. *)
Theorem exceptions_logged_or_swallowed (req : Request) (d : Db) :
  let addT := run (addUserFavoriteTheme fails headersSentThrows req) d in
  let remT := run (removeUserFavoriteTheme fails headersSentThrows req) d in
  let addP := run (addUserFavoritePlugin fails headersSentThrows req) d in
  let remP := run (removeUserFavoritePlugin fails headersSentThrows req) d in
  let getT := run (getUserThemes checkIsAdminUser fails headersSentThrows req) d in
  let getFT :=
    run (getUserFavoriteThemes checkIsAdminUser fails headersSentThrows req) d in
  let getFP :=
    run (getUserFavoritePlugins checkIsAdminUser fails headersSentThrows req) d in
  (raised addT ≠ [] → ¬ callbackAnswered addT →
   caughtAndLogged "Error adding favorite theme:"
     "Failed to add favorite theme." addT)
  ∧ (raised remT ≠ [] → ¬ callbackAnswered remT →
     caughtAndLogged "Error removing favorite theme:"
       "Failed to remove favorite theme." remT)
  ∧ (raised addP ≠ [] → ¬ callbackAnswered addP →
     caughtAndLogged "Error adding favorite plugin:"
       "Failed to add favorite plugin." addP)
  ∧ (raised remP ≠ [] → ¬ callbackAnswered remP →
     caughtAndLogged "Error removing favorite plugin:"
       "Failed to remove favorite plugin." remP)
  ∧ (raised getT ≠ [] → swallowed getT)
  ∧ (raised getFT ≠ [] → swallowed getFT)
  ∧ (raised getFP ≠ [] → swallowed getFP)
  ∧ raised (run (getUserProfile checkIsAdminUser headersSentThrows req) d) = [].
Proof.
  destruct d as [th fth pl fpl]. cbv zeta.
  split; [unfold caughtAndLogged, callbackAnswered; split_handlers;
          finish_caught |].
  split; [unfold caughtAndLogged, callbackAnswered; split_handlers;
          finish_caught |].
  split; [unfold caughtAndLogged, callbackAnswered; split_handlers;
          finish_caught |].
  split; [unfold caughtAndLogged, callbackAnswered; split_handlers;
          finish_caught |].
  split; [unfold swallowed; split_handlers; finish_swallowed |].
  split; [unfold swallowed; split_handlers; finish_swallowed |].
  split; [unfold swallowed; split_handlers; finish_swallowed |].
  split_handlers; reflexivity.
Qed.

End Claims.

(** ** The theorems at sample inputs *)

Lemma sampleDb_consistent : countsConsistent sampleDb.
Proof.
  split; intros id x Hx; cbn [sampleDb themes plugins] in Hx;
    apply lookup_singleton_Some in Hx as [<- <-]; vm_compute; reflexivity.
Qed.

Lemma favorite_handlers_keep_counts_witness :
  countsConsistent sampleDb
  ∧ countsConsistent
      (db (run (addUserFavoriteTheme noFailure true sampleRequest) sampleDb))
  ∧ countsConsistent
      (db (run (removeUserFavoriteTheme noFailure true sampleRequest) sampleDb))
  ∧ countsConsistent
      (db (run (addUserFavoritePlugin noFailure true sampleRequest) sampleDb))
  ∧ countsConsistent
      (db (run (removeUserFavoritePlugin noFailure true sampleRequest) sampleDb)).
Proof.
  split; [exact sampleDb_consistent |].
  apply (favorite_handlers_keep_counts noFailure true sampleRequest sampleDb).
  exact sampleDb_consistent.
Defined.

Lemma add_favorite_missing_entity_404_then_201_witness :
  themes sampleDb !! body_themeId missingRequest = None
  ∧ plugins sampleDb !! body_pluginId missingRequest = None
  ∧ take 2 (statuses (run (addUserFavoriteTheme noFailure true missingRequest)
                        sampleDb)) = [404; 201]
  ∧ take 2 (statuses (run (addUserFavoritePlugin noFailure true missingRequest)
                        sampleDb)) = [404; 201].
Proof.
  assert (HT : themes sampleDb !! body_themeId missingRequest = None)
    by (vm_compute; reflexivity).
  assert (HP : plugins sampleDb !! body_pluginId missingRequest = None)
    by (vm_compute; reflexivity).
  destruct (add_favorite_missing_entity_404_then_201 noFailure true
              missingRequest sampleDb eq_refl eq_refl eq_refl) as [H1 H2].
  exact (conj HT (conj HP (conj (H1 HT) (H2 HP)))).
Defined.

Lemma add_favorite_twice_400_witness :
  let wT := run (addUserFavoriteTheme noFailure true sampleRequest) favoritedDb in
  let wP := run (addUserFavoritePlugin noFailure true sampleRequest) favoritedDb in
  (status <$> delivered wT = Some 400 ∧ db wT = favoritedDb)
  ∧ (status <$> delivered wP = Some 400 ∧ db wP = favoritedDb).
Proof.
  destruct (add_favorite_twice_400 noFailure true sampleRequest favoritedDb
              eq_refl eq_refl eq_refl) as [H1 H2].
  split.
  - apply H1; [by eexists | compute_done].
  - apply H2; [by eexists | compute_done].
Defined.

Lemma remove_missing_favorite_404_witness :
  let wT := run (removeUserFavoriteTheme noFailure true sampleRequest) sampleDb in
  let wP := run (removeUserFavoritePlugin noFailure true sampleRequest) sampleDb in
  (status <$> delivered wT = Some 404 ∧ db wT = sampleDb)
  ∧ (status <$> delivered wP = Some 404 ∧ db wP = sampleDb).
Proof.
  destruct (remove_missing_favorite_404 noFailure true sampleRequest sampleDb
              eq_refl eq_refl) as [H1 H2].
  split; [apply H1 | apply H2]; apply not_elem_of_empty.
Defined.

Lemma favorite_handlers_atomic_witness :
  let w := run (addUserFavoriteTheme noFailure true sampleRequest) favoritedDb in
  errorOutcome w ∧ db w = favoritedDb.
Proof.
  cbv zeta.
  assert (Herr : errorOutcome
                   (run (addUserFavoriteTheme noFailure true sampleRequest)
                      favoritedDb)).
  { exists {| status := 400; payload := NoData;
              message := "Theme already favorited." |}.
    split; [| unfold isError; cbn [status]; lia].
    replace (res (run (addUserFavoriteTheme noFailure true sampleRequest)
                    favoritedDb))
      with [ {| status := 400; payload := NoData;
                message := "Theme already favorited." |};
             {| status := 201; payload := EmptyObject;
                message := "Added theme to favorites successfully." |};
             {| status := 500; payload := NoData;
                message := "Failed to add favorite theme." |} ]
      by (vm_compute; reflexivity).
    apply list_elem_of_here. }
  split; [exact Herr |].
  destruct (favorite_handlers_atomic noFailure true sampleRequest favoritedDb)
    as [[_ H] _].
  exact (H Herr).
Defined.

Lemma fetch_other_user_403_witness :
  let req := withQuery sampleRequest (Some "u2"%string) in
  truthy (query_userId req) = true
  ∧ query_userId req ≠ session_userId req
  ∧ roleIsAdmin (userData req) = false
  ∧ run (getUserProfile roleIsAdmin true req) sampleDb
    = answered sampleDb unauthorized
  ∧ run (getUserThemes roleIsAdmin noFailure true req) sampleDb
    = answered sampleDb unauthorized
  ∧ run (getUserFavoriteThemes roleIsAdmin noFailure true req) sampleDb
    = answered sampleDb unauthorized
  ∧ run (getUserFavoritePlugins roleIsAdmin noFailure true req) sampleDb
    = answered sampleDb unauthorized.
Proof.
  cbv zeta.
  assert (Hne : query_userId (withQuery sampleRequest (Some "u2"%string))
                ≠ session_userId (withQuery sampleRequest (Some "u2"%string)))
    by (cbn; discriminate).
  split; [reflexivity |]. split; [exact Hne |]. split; [reflexivity |].
  exact (fetch_other_user_403 roleIsAdmin noFailure true
           (withQuery sampleRequest (Some "u2"%string)) sampleDb
           eq_refl Hne eq_refl).
Defined.

Lemma fetch_without_query_200_witness :
  statuses (run (getUserProfile roleIsAdmin true sampleRequest) sampleDb) = [200]
  ∧ statuses (run (getUserThemes roleIsAdmin noFailure true sampleRequest) sampleDb)
    = [200]
  ∧ statuses (run (getUserFavoriteThemes roleIsAdmin noFailure true sampleRequest)
                favoritedDb) = [200]
  ∧ statuses (run (getUserFavoritePlugins roleIsAdmin noFailure true sampleRequest)
                favoritedDb) = [200].
Proof.
  destruct (fetch_without_query_200 roleIsAdmin noFailure true sampleRequest
              sampleDb eq_refl eq_refl) as (H1 & H2 & _ & _).
  destruct (fetch_without_query_200 roleIsAdmin noFailure true sampleRequest
              favoritedDb eq_refl eq_refl) as (_ & _ & H3 & H4).
  rewrite H1, H2, H3, H4. repeat split.
Defined.

Lemma fetch_independent_of_query_witness :
  let r1 := withQuery adminRequest (Some "u1"%string) in
  let r2 := withQuery adminRequest (Some "a1"%string) in
  mayFetch roleIsAdmin r1 = true
  ∧ mayFetch roleIsAdmin r2 = true
  ∧ run (getUserThemes roleIsAdmin noFailure true r1) sampleDb
    = run (getUserThemes roleIsAdmin noFailure true r2) sampleDb
  ∧ payload <$> delivered (run (getUserThemes roleIsAdmin noFailure true r1) sampleDb)
    = Some (ThemesPayload (themesWhereUserId "a1" sampleDb)).
Proof.
  cbv zeta.
  destruct (fetch_independent_of_query roleIsAdmin noFailure true adminRequest
              (Some "u1"%string) (Some "a1"%string) sampleDb eq_refl eq_refl)
    as ((_ & Hsame & _ & _) & _ & Hrows).
  destruct (Hrows eq_refl) as (Hthemes & _ & _).
  split; [reflexivity |]. split; [reflexivity |].
  split; [exact Hsame | exact Hthemes].
Defined.

Lemma remove_favorite_of_missing_entity_witness :
  let wT := run (removeUserFavoriteTheme noFailure true sampleRequest) orphanDb in
  let wP := run (removeUserFavoritePlugin noFailure true sampleRequest) orphanDb in
  (statuses wT = [200] ∧ favoriteThemes (db wT) = ∅ ∧ themes (db wT) = ∅)
  ∧ (statuses wP = [200] ∧ favoritePlugins (db wP) = ∅ ∧ plugins (db wP) = ∅).
Proof.
  cbv zeta.
  destruct (remove_favorite_of_missing_entity noFailure true sampleRequest
              orphanDb eq_refl eq_refl eq_refl eq_refl eq_refl) as [H1 H2].
  destruct H1 as (Hs & Hdb & _); [compute_done | reflexivity |].
  destruct H2 as (Hs' & Hdb' & _); [compute_done | reflexivity |].
  rewrite Hs, Hdb, Hs', Hdb'.
  cbn [withFavoriteThemes withFavoritePlugins themes plugins favoriteThemes
       favoritePlugins orphanDb].
  rewrite !difference_diag_L. repeat split.
Defined.

Lemma exceptions_logged_or_swallowed_witness :
  let wA := run (addUserFavoriteTheme commitFails true sampleRequest) sampleDb in
  let wR := run (removeUserFavoritePlugin (λ _, true) true sampleRequest)
              favoritedDb in
  (raised wA ≠ [] ∧ ¬ callbackAnswered wA
   ∧ logged wA = [("Error adding favorite theme:"%string, DbFailure OpCommit)]
   ∧ statuses wA = [500])
  ∧ (raised wR ≠ [] ∧ ¬ callbackAnswered wR
     ∧ logged wR = [("Error removing favorite plugin:"%string, DbFailure OpBegin)]
     ∧ statuses wR = [500]).
Proof.
  cbv zeta.
  assert (HraisedA : raised (run (addUserFavoriteTheme commitFails true
                                    sampleRequest) sampleDb) ≠ [])
    by (vm_compute; discriminate).
  assert (HnotA : ¬ callbackAnswered
                      (run (addUserFavoriteTheme commitFails true
                              sampleRequest) sampleDb))
    by (intros [H | H]; vm_compute in H; discriminate H).
  assert (HraisedR : raised (run (removeUserFavoritePlugin (λ _, true) true
                                    sampleRequest) favoritedDb) ≠ [])
    by (vm_compute; discriminate).
  assert (HnotR : ¬ callbackAnswered
                      (run (removeUserFavoritePlugin (λ _, true) true
                              sampleRequest) favoritedDb))
    by (intros [H | H]; vm_compute in H; discriminate H).
  destruct (exceptions_logged_or_swallowed roleIsAdmin commitFails true
              sampleRequest sampleDb) as (Hadd & _).
  destruct (exceptions_logged_or_swallowed roleIsAdmin (λ _, true) true
              sampleRequest favoritedDb) as (_ & _ & _ & Hrem & _).
  destruct (Hadd HraisedA HnotA) as (eA & HeA & HlogA & HresA).
  destruct (Hrem HraisedR HnotR) as (eR & HeR & HlogR & HresR).
  assert (eA = DbFailure OpCommit) as -> by (vm_compute in HeA; congruence).
  assert (eR = DbFailure OpBegin) as -> by (vm_compute in HeR; congruence).
  unfold statuses. rewrite HresA, HresR.
  split; (split; [assumption |]; split; [assumption |];
          split; [assumption | reflexivity]).
Defined.

(** C7 (as the spec has it) fails: when the query of a fetch handler fails,
    nothing is logged and no 500 is sent; the response is 403. *)
Lemma fetch_failure_neither_logged_nor_500 :
  let wT := run (getUserThemes roleIsAdmin queryFails true sampleRequest) sampleDb in
  let wF := run (getUserFavoriteThemes roleIsAdmin queryFails true sampleRequest)
              sampleDb in
  let wP := run (getUserFavoritePlugins roleIsAdmin queryFails true sampleRequest)
              sampleDb in
  (raised wT = [DbFailure OpFindAll] ∧ statuses wT = [403] ∧ ¬ loggedAnd500 wT)
  ∧ (raised wF = [DbFailure OpFindAll] ∧ statuses wF = [403] ∧ ¬ loggedAnd500 wF)
  ∧ (raised wP = [DbFailure OpFindAll] ∧ statuses wP = [403] ∧ ¬ loggedAnd500 wP).
Proof.
  cbv zeta. unfold loggedAnd500.
  repeat split; try (vm_compute; reflexivity);
    intros [Hlog _]; apply Hlog; vm_compute; reflexivity.
Qed.

(** * Further properties of the controller *)

(** ** The favorite handlers when nothing fails *)

Section Success.

Variable fails : DbOp → bool.
Variable headersSentThrows : bool.
Hypothesis no_failure : ∀ op, fails op = false.

Lemma addUserFavoriteTheme_ok (req : Request) (d : Db) :
  is_Some (themes d !! body_themeId req) →
  (user_id (userData req), body_themeId req) ∉ favoriteThemes d →
  run (addUserFavoriteTheme fails headersSentThrows req) d
  = succeeded (themeFavorited (user_id (userData req)) (body_themeId req) d)
      201 "Added theme to favorites successfully.".
Proof.
  destruct d as [th fth pl fpl]. cbn [themes favoriteThemes].
  intros [t Ht] Hrow.
  pose proof (no_failure OpBegin). pose proof (no_failure OpFindByPk).
  pose proof (no_failure OpFindOne). pose proof (no_failure OpCreate).
  pose proof (no_failure OpIncrement). pose proof (no_failure OpCommit).
  split_handlers; (reflexivity || contradiction).
Qed.

Lemma addUserFavoritePlugin_ok (req : Request) (d : Db) :
  is_Some (plugins d !! body_pluginId req) →
  (user_id (userData req), body_pluginId req) ∉ favoritePlugins d →
  run (addUserFavoritePlugin fails headersSentThrows req) d
  = succeeded (pluginFavorited (user_id (userData req)) (body_pluginId req) d)
      201 "Added plugin to favorites successfully.".
Proof.
  destruct d as [th fth pl fpl]. cbn [plugins favoritePlugins].
  intros [t Ht] Hrow.
  pose proof (no_failure OpBegin). pose proof (no_failure OpFindByPk).
  pose proof (no_failure OpFindOne). pose proof (no_failure OpCreate).
  pose proof (no_failure OpIncrement). pose proof (no_failure OpCommit).
  split_handlers; (reflexivity || contradiction).
Qed.

Lemma removeUserFavoriteTheme_ok (req : Request) (d : Db) :
  (user_id (userData req), params_themeId req) ∈ favoriteThemes d →
  run (removeUserFavoriteTheme fails headersSentThrows req) d
  = succeeded (themeUnfavorited (user_id (userData req)) (params_themeId req) d)
      200 "Removed theme from favorites successfully.".
Proof.
  destruct d as [th fth pl fpl]. cbn [themes favoriteThemes].
  intros Hrow.
  pose proof (no_failure OpBegin). pose proof (no_failure OpFindByPk).
  pose proof (no_failure OpFindOne). pose proof (no_failure OpDestroy).
  pose proof (no_failure OpDecrement). pose proof (no_failure OpCommit).
  split_handlers; try (reflexivity || contradiction).
  unfold succeeded, answered, themeUnfavorited.
  cbn [themes favoriteThemes plugins favoritePlugins].
  rewrite alter_id; [reflexivity | congruence].
Qed.

Lemma removeUserFavoritePlugin_ok (req : Request) (d : Db) :
  (user_id (userData req), params_pluginId req) ∈ favoritePlugins d →
  run (removeUserFavoritePlugin fails headersSentThrows req) d
  = succeeded (pluginUnfavorited (user_id (userData req)) (params_pluginId req) d)
      200 "Removed plugin from favorites successfully.".
Proof.
  destruct d as [th fth pl fpl]. cbn [plugins favoritePlugins].
  intros Hrow.
  pose proof (no_failure OpBegin). pose proof (no_failure OpFindByPk).
  pose proof (no_failure OpFindOne). pose proof (no_failure OpDestroy).
  pose proof (no_failure OpDecrement). pose proof (no_failure OpCommit).
  split_handlers; try (reflexivity || contradiction).
  unfold succeeded, answered, pluginUnfavorited.
  cbn [themes favoriteThemes plugins favoritePlugins].
  rewrite alter_id; [reflexivity | congruence].
Qed.

End Success.

(** ** Inserting and deleting a join row, incrementing and decrementing *)

Lemma insert_then_delete_row (k : FavoriteRow) (rows : gset FavoriteRow) :
  k ∉ rows → (rows ∪ {[ k ]}) ∖ {[ k ]} = rows.
Proof.
  intros Hk. apply set_eq. intros r.
  rewrite elem_of_difference, elem_of_union, elem_of_singleton.
  split.
  - intros [[Hr | ->] Hne]; [exact Hr | contradiction].
  - intros Hr. split; [by left |]. intros ->. contradiction.
Qed.

Lemma delete_then_insert_row (k : FavoriteRow) (rows : gset FavoriteRow) :
  k ∈ rows → (rows ∖ {[ k ]}) ∪ {[ k ]} = rows.
Proof.
  intros Hk. apply set_eq. intros r.
  rewrite elem_of_union, elem_of_difference, elem_of_singleton.
  split.
  - intros [[Hr _] | ->]; assumption.
  - intros Hr. destruct (decide (r = k)) as [-> | Hne]; [by right | by left].
Qed.

Lemma themeIncrement_back (by_ : Z) (t : Theme) :
  themeIncrement (- by_) (themeIncrement by_ t) = t.
Proof. destruct t. unfold themeIncrement. cbn. f_equal. lia. Qed.

Lemma themeIncrement_forth (by_ : Z) (t : Theme) :
  themeIncrement by_ (themeIncrement (- by_) t) = t.
Proof. destruct t. unfold themeIncrement. cbn. f_equal. lia. Qed.

Lemma pluginIncrement_back (by_ : Z) (p : Plugin) :
  pluginIncrement (- by_) (pluginIncrement by_ p) = p.
Proof. destruct p. unfold pluginIncrement. cbn. f_equal. lia. Qed.

Lemma pluginIncrement_forth (by_ : Z) (p : Plugin) :
  pluginIncrement by_ (pluginIncrement (- by_) p) = p.
Proof. destruct p. unfold pluginIncrement. cbn. f_equal. lia. Qed.

Lemma themeUnfavorited_themeFavorited userId id (d : Db) :
  (userId, id) ∉ favoriteThemes d →
  themeUnfavorited userId id (themeFavorited userId id d) = d.
Proof.
  intros Hk. destruct d as [th fth pl fpl].
  unfold themeUnfavorited, themeFavorited.
  cbn [themes favoriteThemes plugins favoritePlugins] in *.
  rewrite insert_then_delete_row by done.
  rewrite alter_alter_eq, alter_id; [reflexivity |].
  intros t _. cbn. apply (themeIncrement_back 1).
Qed.

Lemma themeFavorited_themeUnfavorited userId id (d : Db) :
  (userId, id) ∈ favoriteThemes d →
  themeFavorited userId id (themeUnfavorited userId id d) = d.
Proof.
  intros Hk. destruct d as [th fth pl fpl].
  unfold themeUnfavorited, themeFavorited.
  cbn [themes favoriteThemes plugins favoritePlugins] in *.
  rewrite delete_then_insert_row by done.
  rewrite alter_alter_eq, alter_id; [reflexivity |].
  intros t _. cbn. apply (themeIncrement_forth 1).
Qed.

Lemma pluginUnfavorited_pluginFavorited userId id (d : Db) :
  (userId, id) ∉ favoritePlugins d →
  pluginUnfavorited userId id (pluginFavorited userId id d) = d.
Proof.
  intros Hk. destruct d as [th fth pl fpl].
  unfold pluginUnfavorited, pluginFavorited.
  cbn [themes favoriteThemes plugins favoritePlugins] in *.
  rewrite insert_then_delete_row by done.
  rewrite alter_alter_eq, alter_id; [reflexivity |].
  intros t _. cbn. apply (pluginIncrement_back 1).
Qed.

Lemma pluginFavorited_pluginUnfavorited userId id (d : Db) :
  (userId, id) ∈ favoritePlugins d →
  pluginFavorited userId id (pluginUnfavorited userId id d) = d.
Proof.
  intros Hk. destruct d as [th fth pl fpl].
  unfold pluginUnfavorited, pluginFavorited.
  cbn [themes favoriteThemes plugins favoritePlugins] in *.
  rewrite delete_then_insert_row by done.
  rewrite alter_alter_eq, alter_id; [reflexivity |].
  intros t _. cbn. apply (pluginIncrement_forth 1).
Qed.

(** ** A favorite added, a favorite removed *)

(** X1. When no database operation fails, the entity exists and the user
    has not favorited it, an add-favorite request is answered with 201 only,
    nothing is logged, the join row is there afterwards and the counter of
    the entity is one higher. *)
Theorem add_favorite_succeeds
  (fails : DbOp → bool) (headersSentThrows : bool) (req : Request) (d : Db) :
  let u := user_id (userData req) in
  (∀ op, fails op = false) →
  (∀ t, themes d !! body_themeId req = Some t →
        (u, body_themeId req) ∉ favoriteThemes d →
        let w := run (addUserFavoriteTheme fails headersSentThrows req) d in
        statuses w = [201] ∧ logged w = []
        ∧ (u, body_themeId req) ∈ favoriteThemes (db w)
        ∧ themes (db w) !! body_themeId req = Some (themeIncrement 1 t))
  ∧ (∀ p, plugins d !! body_pluginId req = Some p →
          (u, body_pluginId req) ∉ favoritePlugins d →
          let w := run (addUserFavoritePlugin fails headersSentThrows req) d in
          statuses w = [201] ∧ logged w = []
          ∧ (u, body_pluginId req) ∈ favoritePlugins (db w)
          ∧ plugins (db w) !! body_pluginId req = Some (pluginIncrement 1 p)).
Proof.
  intros u Hok. subst u. split.
  - intros t Ht Hrow. cbv zeta.
    rewrite (addUserFavoriteTheme_ok fails headersSentThrows Hok) by eauto.
    cbn [succeeded answered db res logged statuses themeFavorited themes
         favoriteThemes].
    rewrite lookup_alter_eq, Ht, elem_of_union, elem_of_singleton.
    repeat split; auto.
  - intros p Hp Hrow. cbv zeta.
    rewrite (addUserFavoritePlugin_ok fails headersSentThrows Hok) by eauto.
    cbn [succeeded answered db res logged statuses pluginFavorited plugins
         favoritePlugins].
    rewrite lookup_alter_eq, Hp, elem_of_union, elem_of_singleton.
    repeat split; auto.
Qed.

(** X2. When no database operation fails and the user has favorited the
    entity, a remove-favorite request is answered with 200 only, nothing is
    logged, the join row is gone afterwards and the counter of the entity,
    if the entity exists, is one lower (also when that makes it negative). *)
Theorem remove_favorite_succeeds
  (fails : DbOp → bool) (headersSentThrows : bool) (req : Request) (d : Db) :
  let u := user_id (userData req) in
  (∀ op, fails op = false) →
  ((u, params_themeId req) ∈ favoriteThemes d →
   let w := run (removeUserFavoriteTheme fails headersSentThrows req) d in
   statuses w = [200] ∧ logged w = []
   ∧ ((u, params_themeId req) ∉ favoriteThemes (db w))
   ∧ themes (db w) !! params_themeId req
     = themeIncrement (- 1) <$> themes d !! params_themeId req)
  ∧ ((u, params_pluginId req) ∈ favoritePlugins d →
     let w := run (removeUserFavoritePlugin fails headersSentThrows req) d in
     statuses w = [200] ∧ logged w = []
     ∧ ((u, params_pluginId req) ∉ favoritePlugins (db w))
     ∧ plugins (db w) !! params_pluginId req
       = pluginIncrement (- 1) <$> plugins d !! params_pluginId req).
Proof.
  intros u Hok. subst u. split.
  - intros Hrow. cbv zeta.
    rewrite (removeUserFavoriteTheme_ok fails headersSentThrows Hok) by done.
    cbn [succeeded answered db res logged statuses themeUnfavorited themes
         favoriteThemes].
    rewrite lookup_alter_eq, elem_of_difference, elem_of_singleton.
    repeat split; auto. intros [_ Hne]. by apply Hne.
  - intros Hrow. cbv zeta.
    rewrite (removeUserFavoritePlugin_ok fails headersSentThrows Hok) by done.
    cbn [succeeded answered db res logged statuses pluginUnfavorited plugins
         favoritePlugins].
    rewrite lookup_alter_eq, elem_of_difference, elem_of_singleton.
    repeat split; auto. intros [_ Hne]. by apply Hne.
Qed.

(** ** Round trips *)

(** X3. Adding a favorite and then removing it, by the same user and for the
    same entity, with no database failure, gives back the database as it
    was. *)
Theorem add_then_remove_restores
  (fails : DbOp → bool) (headersSentThrows : bool)
  (req req' : Request) (d : Db) :
  let u := user_id (userData req) in
  (∀ op, fails op = false) →
  user_id (userData req') = u →
  (params_themeId req' = body_themeId req →
   is_Some (themes d !! body_themeId req) →
   (u, body_themeId req) ∉ favoriteThemes d →
   db (run (removeUserFavoriteTheme fails headersSentThrows req')
         (db (run (addUserFavoriteTheme fails headersSentThrows req) d))) = d)
  ∧ (params_pluginId req' = body_pluginId req →
     is_Some (plugins d !! body_pluginId req) →
     (u, body_pluginId req) ∉ favoritePlugins d →
     db (run (removeUserFavoritePlugin fails headersSentThrows req')
           (db (run (addUserFavoritePlugin fails headersSentThrows req) d))) = d).
Proof.
  intros u Hok Hu. subst u. split.
  - intros Hid Hth Hrow.
    rewrite (addUserFavoriteTheme_ok fails headersSentThrows Hok) by done.
    cbn [succeeded answered db].
    rewrite (removeUserFavoriteTheme_ok fails headersSentThrows Hok).
    + cbn [succeeded answered db]. rewrite Hu, Hid.
      by apply themeUnfavorited_themeFavorited.
    + rewrite Hu, Hid. cbn [themeFavorited favoriteThemes].
      rewrite elem_of_union, elem_of_singleton. by right.
  - intros Hid Hth Hrow.
    rewrite (addUserFavoritePlugin_ok fails headersSentThrows Hok) by done.
    cbn [succeeded answered db].
    rewrite (removeUserFavoritePlugin_ok fails headersSentThrows Hok).
    + cbn [succeeded answered db]. rewrite Hu, Hid.
      by apply pluginUnfavorited_pluginFavorited.
    + rewrite Hu, Hid. cbn [pluginFavorited favoritePlugins].
      rewrite elem_of_union, elem_of_singleton. by right.
Qed.

(** X4. Removing a favorite of an existing entity and then adding it again,
    with no database failure, gives back the database as it was. *)
Theorem remove_then_add_restores
  (fails : DbOp → bool) (headersSentThrows : bool)
  (req req' : Request) (d : Db) :
  let u := user_id (userData req) in
  (∀ op, fails op = false) →
  user_id (userData req') = u →
  (body_themeId req' = params_themeId req →
   is_Some (themes d !! params_themeId req) →
   (u, params_themeId req) ∈ favoriteThemes d →
   db (run (addUserFavoriteTheme fails headersSentThrows req')
         (db (run (removeUserFavoriteTheme fails headersSentThrows req) d))) = d)
  ∧ (body_pluginId req' = params_pluginId req →
     is_Some (plugins d !! params_pluginId req) →
     (u, params_pluginId req) ∈ favoritePlugins d →
     db (run (addUserFavoritePlugin fails headersSentThrows req')
           (db (run (removeUserFavoritePlugin fails headersSentThrows req) d))) = d).
Proof.
  intros u Hok Hu. subst u. split.
  - intros Hid Hth Hrow.
    rewrite (removeUserFavoriteTheme_ok fails headersSentThrows Hok) by done.
    cbn [succeeded answered db].
    rewrite (addUserFavoriteTheme_ok fails headersSentThrows Hok).
    + cbn [succeeded answered db]. rewrite Hu, Hid.
      by apply themeFavorited_themeUnfavorited.
    + rewrite Hid. cbn [themeUnfavorited themes].
      rewrite lookup_alter_eq. by apply fmap_is_Some.
    + rewrite Hu, Hid. cbn [themeUnfavorited favoriteThemes].
      rewrite elem_of_difference, elem_of_singleton. intros [_ Hne]. by apply Hne.
  - intros Hid Hth Hrow.
    rewrite (removeUserFavoritePlugin_ok fails headersSentThrows Hok) by done.
    cbn [succeeded answered db].
    rewrite (addUserFavoritePlugin_ok fails headersSentThrows Hok).
    + cbn [succeeded answered db]. rewrite Hu, Hid.
      by apply pluginFavorited_pluginUnfavorited.
    + rewrite Hid. cbn [pluginUnfavorited plugins].
      rewrite lookup_alter_eq. by apply fmap_is_Some.
    + rewrite Hu, Hid. cbn [pluginUnfavorited favoritePlugins].
      rewrite elem_of_difference, elem_of_singleton. intros [_ Hne]. by apply Hne.
Qed.

(** ** What the delivered response tells *)

(** X5. Whatever fails: when the response delivered by an add-favorite
    handler is 201, or by a remove-favorite handler is 200, the complete
    write has been committed and that response is the only one sent. *)
Theorem delivered_success_means_written
  (fails : DbOp → bool) (headersSentThrows : bool) (req : Request) (d : Db) :
  let u := user_id (userData req) in
  let addT := run (addUserFavoriteTheme fails headersSentThrows req) d in
  let remT := run (removeUserFavoriteTheme fails headersSentThrows req) d in
  let addP := run (addUserFavoritePlugin fails headersSentThrows req) d in
  let remP := run (removeUserFavoritePlugin fails headersSentThrows req) d in
  (status <$> delivered addT = Some 201 →
   is_Some (themes d !! body_themeId req)
   ∧ ((u, body_themeId req) ∉ favoriteThemes d)
   ∧ db addT = themeFavorited u (body_themeId req) d
   ∧ length (res addT) = 1%nat)
  ∧ (status <$> delivered remT = Some 200 →
     (u, params_themeId req) ∈ favoriteThemes d
     ∧ db remT = themeUnfavorited u (params_themeId req) d
     ∧ length (res remT) = 1%nat)
  ∧ (status <$> delivered addP = Some 201 →
     is_Some (plugins d !! body_pluginId req)
     ∧ ((u, body_pluginId req) ∉ favoritePlugins d)
     ∧ db addP = pluginFavorited u (body_pluginId req) d
     ∧ length (res addP) = 1%nat)
  ∧ (status <$> delivered remP = Some 200 →
     (u, params_pluginId req) ∈ favoritePlugins d
     ∧ db remP = pluginUnfavorited u (params_pluginId req) d
     ∧ length (res remP) = 1%nat).
Proof.
  destruct d as [th fth pl fpl]. cbv zeta.
  split; [| split; [| split]].
  - split_handlers; intros Hd; try discriminate Hd; auto.
  - split_handlers; intros Hd; try discriminate Hd; auto.
    unfold themeUnfavorited. cbn [themes favoriteThemes plugins favoritePlugins].
    rewrite alter_id; [auto | congruence].
  - split_handlers; intros Hd; try discriminate Hd; auto.
  - split_handlers; intros Hd; try discriminate Hd; auto.
    unfold pluginUnfavorited. cbn [themes favoriteThemes plugins favoritePlugins].
    rewrite alter_id; [auto | congruence].
Qed.

(** ** The error paths of the transaction callbacks *)

(** X6. On the other error paths of the transaction callbacks (favorite
    exists already on add, favorite missing on remove) the handler goes on,
    after the 400 or 404, to call the success helper with 201 or 200; when
    the helper raises on an answered response, the catch block logs that and
    calls the error helper with 500. *)
Theorem callback_error_then_success_helper
  (fails : DbOp → bool) (headersSentThrows : bool) (req : Request) (d : Db) :
  let u := user_id (userData req) in
  let tail := if headersSentThrows then [500] else [] in
  let entry (msg : string) :=
    if headersSentThrows then [(msg, HeadersAlreadySent)] else [] in
  fails OpBegin = false → fails OpFindByPk = false →
  fails OpFindOne = false → fails OpCommit = false →
  (is_Some (themes d !! body_themeId req) →
   (u, body_themeId req) ∈ favoriteThemes d →
   let w := run (addUserFavoriteTheme fails headersSentThrows req) d in
   statuses w = [400; 201] ++ tail
   ∧ logged w = entry "Error adding favorite theme:"%string)
  ∧ ((u, params_themeId req) ∉ favoriteThemes d →
     let w := run (removeUserFavoriteTheme fails headersSentThrows req) d in
     statuses w = [404; 200] ++ tail
     ∧ logged w = entry "Error removing favorite theme:"%string)
  ∧ (is_Some (plugins d !! body_pluginId req) →
     (u, body_pluginId req) ∈ favoritePlugins d →
     let w := run (addUserFavoritePlugin fails headersSentThrows req) d in
     statuses w = [400; 201] ++ tail
     ∧ logged w = entry "Error adding favorite plugin:"%string)
  ∧ ((u, params_pluginId req) ∉ favoritePlugins d →
     let w := run (removeUserFavoritePlugin fails headersSentThrows req) d in
     statuses w = [404; 200] ++ tail
     ∧ logged w = entry "Error removing favorite plugin:"%string).
Proof.
  destruct d as [th fth pl fpl].
  cbn [themes plugins favoriteThemes favoritePlugins]. cbv zeta.
  intros HB HF HO HC.
  split; [| split; [| split]].
  - intros [x Hx] Hrow. split_handlers; (done || contradiction).
  - intros Hrow. split_handlers; (done || contradiction).
  - intros [x Hx] Hrow. split_handlers; (done || contradiction).
  - intros Hrow. split_handlers; (done || contradiction).
Qed.

(** ** What a favorite handler leaves alone *)

Lemma sameThemeButCount_increment (by_ : Z) (t : Theme) :
  - 1 ≤ by_ ≤ 1 → sameThemeButCount t (themeIncrement by_ t).
Proof. intros Hby. unfold sameThemeButCount, themeIncrement. cbn. repeat split; lia. Qed.

Lemma samePluginButCount_increment (by_ : Z) (p : Plugin) :
  - 1 ≤ by_ ≤ 1 → samePluginButCount p (pluginIncrement by_ p).
Proof. intros Hby. unfold samePluginButCount, pluginIncrement. cbn. repeat split; lia. Qed.

Lemma themeFrame_same userId id (d : Db) : themeFrame userId id d d.
Proof.
  unfold themeFrame. repeat split; auto.
  destruct (themes d !! id) as [t |]; [| done].
  unfold sameThemeButCount. repeat split; lia.
Qed.

Lemma pluginFrame_same userId id (d : Db) : pluginFrame userId id d d.
Proof.
  unfold pluginFrame. repeat split; auto.
  destruct (plugins d !! id) as [p |]; [| done].
  unfold samePluginButCount. repeat split; lia.
Qed.

Lemma themeFrame_favorited userId id (d : Db) :
  themeFrame userId id d (themeFavorited userId id d).
Proof.
  unfold themeFrame, themeFavorited.
  cbn [themes favoriteThemes plugins favoritePlugins].
  split; [reflexivity |]. split; [reflexivity |]. split; [| split].
  - intros r Hr. rewrite elem_of_union, elem_of_singleton. tauto.
  - intros id' Hne. by apply lookup_alter_ne.
  - rewrite lookup_alter_eq. destruct (themes d !! id) as [t |]; cbn; [| done].
    apply sameThemeButCount_increment. lia.
Qed.

Lemma themeFrame_unfavorited userId id (d : Db) :
  themeFrame userId id d (themeUnfavorited userId id d).
Proof.
  unfold themeFrame, themeUnfavorited.
  cbn [themes favoriteThemes plugins favoritePlugins].
  split; [reflexivity |]. split; [reflexivity |]. split; [| split].
  - intros r Hr. rewrite elem_of_difference, elem_of_singleton. tauto.
  - intros id' Hne. by apply lookup_alter_ne.
  - rewrite lookup_alter_eq. destruct (themes d !! id) as [t |]; cbn; [| done].
    apply sameThemeButCount_increment. lia.
Qed.

Lemma pluginFrame_favorited userId id (d : Db) :
  pluginFrame userId id d (pluginFavorited userId id d).
Proof.
  unfold pluginFrame, pluginFavorited.
  cbn [themes favoriteThemes plugins favoritePlugins].
  split; [reflexivity |]. split; [reflexivity |]. split; [| split].
  - intros r Hr. rewrite elem_of_union, elem_of_singleton. tauto.
  - intros id' Hne. by apply lookup_alter_ne.
  - rewrite lookup_alter_eq. destruct (plugins d !! id) as [p |]; cbn; [| done].
    apply samePluginButCount_increment. lia.
Qed.

Lemma pluginFrame_unfavorited userId id (d : Db) :
  pluginFrame userId id d (pluginUnfavorited userId id d).
Proof.
  unfold pluginFrame, pluginUnfavorited.
  cbn [themes favoriteThemes plugins favoritePlugins].
  split; [reflexivity |]. split; [reflexivity |]. split; [| split].
  - intros r Hr. rewrite elem_of_difference, elem_of_singleton. tauto.
  - intros id' Hne. by apply lookup_alter_ne.
  - rewrite lookup_alter_eq. destruct (plugins d !! id) as [p |]; cbn; [| done].
    apply samePluginButCount_increment. lia.
Qed.

(** X7. Whatever fails, a favorite handler changes at most the join row of
    the requesting user and the requested entity, and the counter of that
    entity by at most one: the other table pair, the rows of other users,
    the other entities and the other columns stay as they were. *)
Theorem favorite_handlers_frame
  (fails : DbOp → bool) (headersSentThrows : bool) (req : Request) (d : Db) :
  let u := user_id (userData req) in
  themeFrame u (body_themeId req) d
    (db (run (addUserFavoriteTheme fails headersSentThrows req) d))
  ∧ themeFrame u (params_themeId req) d
      (db (run (removeUserFavoriteTheme fails headersSentThrows req) d))
  ∧ pluginFrame u (body_pluginId req) d
      (db (run (addUserFavoritePlugin fails headersSentThrows req) d))
  ∧ pluginFrame u (params_pluginId req) d
      (db (run (removeUserFavoritePlugin fails headersSentThrows req) d)).
Proof.
  cbv zeta. split; [| split; [| split]].
  - destruct (addUserFavoriteTheme_db fails headersSentThrows req d)
      as [-> | (_ & _ & -> & _)];
      [apply themeFrame_same | apply themeFrame_favorited].
  - destruct (removeUserFavoriteTheme_db fails headersSentThrows req d)
      as [-> | (_ & -> & _)];
      [apply themeFrame_same | apply themeFrame_unfavorited].
  - destruct (addUserFavoritePlugin_db fails headersSentThrows req d)
      as [-> | (_ & _ & -> & _)];
      [apply pluginFrame_same | apply pluginFrame_favorited].
  - destruct (removeUserFavoritePlugin_db fails headersSentThrows req d)
      as [-> | (_ & -> & _)];
      [apply pluginFrame_same | apply pluginFrame_unfavorited].
Qed.

(** ** The fetch handlers *)

(** X8. Whatever the request and whatever fails, a fetch handler leaves the
    database as it was, logs nothing, and sends either 200 or 403 and
    nothing else (never 500). *)
Theorem fetch_handlers_read_only
  (checkIsAdminUser : UserData → bool) (fails : DbOp → bool)
  (headersSentThrows : bool) (req : Request) (d : Db) :
  let readOnly (w : World) :=
    db w = d ∧ logged w = [] ∧ (statuses w = [200] ∨ statuses w = [403]) in
  readOnly (run (getUserProfile checkIsAdminUser headersSentThrows req) d)
  ∧ readOnly (run (getUserThemes checkIsAdminUser fails headersSentThrows req) d)
  ∧ readOnly (run (getUserFavoriteThemes checkIsAdminUser fails headersSentThrows req) d)
  ∧ readOnly (run (getUserFavoritePlugins checkIsAdminUser fails headersSentThrows req) d).
Proof.
  cbv zeta. repeat apply conj; split_handlers; auto.
Qed.

Lemma mayFetch_false_iff (checkIsAdminUser : UserData → bool) (req : Request) :
  mayFetch checkIsAdminUser req = false
  ↔ truthy (query_userId req) = true
    ∧ query_userId req ≠ session_userId req
    ∧ checkIsAdminUser (userData req) = false.
Proof.
  unfold mayFetch.
  destruct (truthy (query_userId req)); cbn [negb orb].
  - destruct (decide (query_userId req = session_userId req)) as [Heq | Hne].
    + rewrite bool_decide_eq_true_2 by done. cbn [orb].
      split; [discriminate | intros (_ & Hne & _); contradiction].
    + rewrite bool_decide_eq_false_2 by done. cbn [orb]. tauto.
  - split; [discriminate | intros (Hq & _); discriminate].
Qed.

(** X9. The profile handler answers 403 exactly when the query names a
    user, that user is not the session user and the requester is not an
    admin; the querying fetch handlers answer 403 exactly then or when the
    query fails. *)
Theorem fetch_403_exactly_when
  (checkIsAdminUser : UserData → bool) (fails : DbOp → bool)
  (headersSentThrows : bool) (req : Request) (d : Db) :
  let denied :=
    truthy (query_userId req) = true
    ∧ query_userId req ≠ session_userId req
    ∧ checkIsAdminUser (userData req) = false in
  (statuses (run (getUserProfile checkIsAdminUser headersSentThrows req) d) = [403]
   ↔ denied)
  ∧ (statuses (run (getUserThemes checkIsAdminUser fails headersSentThrows req) d)
     = [403] ↔ denied ∨ fails OpFindAll = true)
  ∧ (statuses (run (getUserFavoriteThemes checkIsAdminUser fails headersSentThrows req) d)
     = [403] ↔ denied ∨ fails OpFindAll = true)
  ∧ (statuses (run (getUserFavoritePlugins checkIsAdminUser fails headersSentThrows req) d)
     = [403] ↔ denied ∨ fails OpFindAll = true).
Proof.
  cbv zeta. rewrite <- (mayFetch_false_iff checkIsAdminUser req).
  (split; [| split; [| split]]); split_handlers;
    (split; intros H; simpl in H |- *;
     first [done | congruence | by left | by right | destruct H; congruence]).
Qed.

(** X10. A request whose query names the session user, or whose user is an
    admin, is answered with 200: the profile is [userData], the rows are
    those selected by [userData.id], provided the query does not fail. *)
Theorem owner_or_admin_fetches
  (checkIsAdminUser : UserData → bool) (fails : DbOp → bool)
  (headersSentThrows : bool) (req : Request) (d : Db) :
  let uid := user_id (userData req) in
  query_userId req = session_userId req ∨ checkIsAdminUser (userData req) = true →
  fails OpFindAll = false →
  run (getUserProfile checkIsAdminUser headersSentThrows req) d
  = answered d {| status := 200; payload := UserPayload (userData req);
                  message := "User data fetched successfully." |}
  ∧ run (getUserThemes checkIsAdminUser fails headersSentThrows req) d
    = answered d {| status := 200;
                    payload := ThemesPayload (themesWhereUserId uid d);
                    message := "User themes fetched successfully." |}
  ∧ run (getUserFavoriteThemes checkIsAdminUser fails headersSentThrows req) d
    = answered d {| status := 200;
                    payload := FavoriteThemesPayload (favoriteThemesWhereUserId uid d);
                    message := "User favorite themes fetched successfully." |}
  ∧ run (getUserFavoritePlugins checkIsAdminUser fails headersSentThrows req) d
    = answered d {| status := 200;
                    payload := FavoritePluginsPayload (favoritePluginsWhereUserId uid d);
                    message := "User favorite plugins fetched successfully." |}.
Proof.
  intros uid Hwho Hfind. subst uid.
  assert (Hallowed : mayFetch checkIsAdminUser req = true).
  { destruct (mayFetch checkIsAdminUser req) eqn:Hm; [reflexivity |].
    apply mayFetch_false_iff in Hm as (_ & Hne & Hadm).
    destruct Hwho as [Heq | Hyes]; [contradiction | congruence]. }
  repeat apply conj; split_handlers; reflexivity.
Qed.

(** ** Any sequence of calls *)

Lemma fetch_handlers_db
  (checkIsAdminUser : UserData → bool) (fails : DbOp → bool)
  (headersSentThrows : bool) (req : Request) (d : Db) :
  db (run (getUserProfile checkIsAdminUser headersSentThrows req) d) = d
  ∧ db (run (getUserThemes checkIsAdminUser fails headersSentThrows req) d) = d
  ∧ db (run (getUserFavoriteThemes checkIsAdminUser fails headersSentThrows req) d) = d
  ∧ db (run (getUserFavoritePlugins checkIsAdminUser fails headersSentThrows req) d) = d.
Proof. repeat apply conj; split_handlers; reflexivity. Qed.

(** What one call leaves in the database. *)
Lemma dispatch_db
  (checkIsAdminUser : UserData → bool) (headersSentThrows : bool)
  (c : Call) (d : Db) :
  let u := user_id (userData (call_request c)) in
  let d' := db (run (dispatch checkIsAdminUser headersSentThrows c) d) in
  d' = d
  ∨ (∃ id, ((u, id) ∉ favoriteThemes d) ∧ d' = themeFavorited u id d)
  ∨ (∃ id, (u, id) ∈ favoriteThemes d ∧ d' = themeUnfavorited u id d)
  ∨ (∃ id, ((u, id) ∉ favoritePlugins d) ∧ d' = pluginFavorited u id d)
  ∨ (∃ id, (u, id) ∈ favoritePlugins d ∧ d' = pluginUnfavorited u id d).
Proof.
  destruct c as [e req fails]. cbv zeta. unfold dispatch.
  cbn [call_endpoint call_request call_fails].
  destruct (fetch_handlers_db checkIsAdminUser fails headersSentThrows req d)
    as (H1 & H2 & H3 & H4).
  destruct e; auto.
  - destruct (addUserFavoriteTheme_db fails headersSentThrows req d)
      as [-> | (_ & Hrow & -> & _)]; eauto 6.
  - destruct (removeUserFavoriteTheme_db fails headersSentThrows req d)
      as [-> | (Hrow & -> & _)]; eauto 7.
  - destruct (addUserFavoritePlugin_db fails headersSentThrows req d)
      as [-> | (_ & Hrow & -> & _)]; eauto 8.
  - destruct (removeUserFavoritePlugin_db fails headersSentThrows req d)
      as [-> | (Hrow & -> & _)]; eauto 9.
Qed.

Lemma dispatch_consistent
  (checkIsAdminUser : UserData → bool) (headersSentThrows : bool)
  (c : Call) (d : Db) :
  countsConsistent d →
  countsConsistent (db (run (dispatch checkIsAdminUser headersSentThrows c) d)).
Proof.
  intros Hd.
  destruct (dispatch_db checkIsAdminUser headersSentThrows c d)
    as [-> | [(id & Hrow & ->) | [(id & Hrow & ->)
       | [(id & Hrow & ->) | (id & Hrow & ->)]]]].
  - exact Hd.
  - by apply themeFavorited_consistent.
  - by apply themeUnfavorited_consistent.
  - by apply pluginFavorited_consistent.
  - by apply pluginUnfavorited_consistent.
Qed.

Lemma consistent_nonnegative (d : Db) : countsConsistent d → countsNonNegative d.
Proof.
  intros [Hth Hpl]. split.
  - intros id t Ht. rewrite (Hth _ _ Ht). lia.
  - intros id p Hp. rewrite (Hpl _ _ Hp). lia.
Qed.

(** X11. After any sequence of calls of the eight endpoints, whatever
    fails in each, a database whose counters equal the numbers of
    referencing join rows is still such a database, and no counter is
    negative. *)
Theorem serve_keeps_counts
  (checkIsAdminUser : UserData → bool) (headersSentThrows : bool)
  (calls : list Call) (d : Db) :
  countsConsistent d →
  countsConsistent (serve checkIsAdminUser headersSentThrows calls d)
  ∧ countsNonNegative (serve checkIsAdminUser headersSentThrows calls d).
Proof.
  intros Hd.
  assert (Hgoal : countsConsistent
                    (serve checkIsAdminUser headersSentThrows calls d)).
  { revert d Hd. induction calls as [| c rest IH]; intros d Hd.
    - exact Hd.
    - cbn [serve]. apply IH. by apply dispatch_consistent. }
  split; [exact Hgoal | by apply consistent_nonnegative].
Qed.

Lemma dispatch_entities
  (checkIsAdminUser : UserData → bool) (headersSentThrows : bool)
  (c : Call) (d : Db) :
  let d' := db (run (dispatch checkIsAdminUser headersSentThrows c) d) in
  dom (themes d') = dom (themes d) ∧ dom (plugins d') = dom (plugins d).
Proof.
  cbv zeta.
  destruct (dispatch_db checkIsAdminUser headersSentThrows c d)
    as [-> | [(id & Hrow & ->) | [(id & Hrow & ->)
       | [(id & Hrow & ->) | (id & Hrow & ->)]]]];
    cbn [themeFavorited themeUnfavorited pluginFavorited pluginUnfavorited
         themes plugins];
    rewrite ?dom_alter_L; done.
Qed.

(** X12. No sequence of calls of the controller creates or deletes a theme
    or a plugin. *)
Theorem serve_keeps_entities
  (checkIsAdminUser : UserData → bool) (headersSentThrows : bool)
  (calls : list Call) (d : Db) :
  let d' := serve checkIsAdminUser headersSentThrows calls d in
  dom (themes d') = dom (themes d) ∧ dom (plugins d') = dom (plugins d).
Proof.
  cbv zeta. revert d. induction calls as [| c rest IH]; intros d.
  - done.
  - cbn [serve].
    destruct (IH (db (run (dispatch checkIsAdminUser headersSentThrows c) d)))
      as [-> ->].
    apply dispatch_entities.
Qed.

(** ** Favorites and their listing *)

Lemma elem_of_favoriteThemesWhereUserId
  (userId : string) (d : Db) (r : FavoriteRow) (o : option Theme) :
  (r, o) ∈ favoriteThemesWhereUserId userId d
  ↔ r ∈ favoriteThemes d ∧ row_userId r = userId ∧ o = themes d !! row_id r.
Proof.
  unfold favoriteThemesWhereUserId. rewrite list_elem_of_fmap. split.
  - intros (r' & Heq & Hr'). injection Heq as -> ->.
    apply elem_of_elements, elem_of_filter in Hr' as [Hu Hr']. auto.
  - intros (Hr & Hu & ->). exists r. split; [reflexivity |].
    apply elem_of_elements, elem_of_filter. auto.
Qed.

Lemma elem_of_favoritePluginsWhereUserId
  (userId : string) (d : Db) (r : FavoriteRow) (o : option Plugin) :
  (r, o) ∈ favoritePluginsWhereUserId userId d
  ↔ r ∈ favoritePlugins d ∧ row_userId r = userId ∧ o = plugins d !! row_id r.
Proof.
  unfold favoritePluginsWhereUserId. rewrite list_elem_of_fmap. split.
  - intros (r' & Heq & Hr'). injection Heq as -> ->.
    apply elem_of_elements, elem_of_filter in Hr' as [Hu Hr']. auto.
  - intros (Hr & Hu & ->). exists r. split; [reflexivity |].
    apply elem_of_elements, elem_of_filter. auto.
Qed.

Lemma getUserFavoriteThemes_ok
  (checkIsAdminUser : UserData → bool) (fails : DbOp → bool)
  (headersSentThrows : bool) (req : Request) (d : Db) :
  mayFetch checkIsAdminUser req = true → fails OpFindAll = false →
  payload <$> delivered
    (run (getUserFavoriteThemes checkIsAdminUser fails headersSentThrows req) d)
  = Some (FavoriteThemesPayload
            (favoriteThemesWhereUserId (user_id (userData req)) d)).
Proof. intros Hallowed Hfind. split_handlers. reflexivity. Qed.

Lemma getUserFavoritePlugins_ok
  (checkIsAdminUser : UserData → bool) (fails : DbOp → bool)
  (headersSentThrows : bool) (req : Request) (d : Db) :
  mayFetch checkIsAdminUser req = true → fails OpFindAll = false →
  payload <$> delivered
    (run (getUserFavoritePlugins checkIsAdminUser fails headersSentThrows req) d)
  = Some (FavoritePluginsPayload
            (favoritePluginsWhereUserId (user_id (userData req)) d)).
Proof. intros Hallowed Hfind. split_handlers. reflexivity. Qed.

(** X13. After a successful add-favorite, the favorites listing of the same
    user contains the new row together with the entity at its incremented
    counter. *)
Theorem favorite_listed_after_add
  (checkIsAdminUser : UserData → bool) (fails : DbOp → bool)
  (headersSentThrows : bool) (req : Request) (d : Db) :
  let u := user_id (userData req) in
  (∀ op, fails op = false) →
  mayFetch checkIsAdminUser req = true →
  (∀ t, themes d !! body_themeId req = Some t →
        (u, body_themeId req) ∉ favoriteThemes d →
        let d' := db (run (addUserFavoriteTheme fails headersSentThrows req) d) in
        ∃ rows,
          payload <$> delivered
            (run (getUserFavoriteThemes checkIsAdminUser fails headersSentThrows req) d')
          = Some (FavoriteThemesPayload rows)
          ∧ ((u, body_themeId req), Some (themeIncrement 1 t)) ∈ rows)
  ∧ (∀ p, plugins d !! body_pluginId req = Some p →
          (u, body_pluginId req) ∉ favoritePlugins d →
          let d' := db (run (addUserFavoritePlugin fails headersSentThrows req) d) in
          ∃ rows,
            payload <$> delivered
              (run (getUserFavoritePlugins checkIsAdminUser fails headersSentThrows req) d')
            = Some (FavoritePluginsPayload rows)
            ∧ ((u, body_pluginId req), Some (pluginIncrement 1 p)) ∈ rows).
Proof.
  intros u Hok Hallowed. subst u. split.
  - intros t Ht Hrow. cbv zeta.
    rewrite (addUserFavoriteTheme_ok fails headersSentThrows Hok) by eauto.
    cbn [succeeded answered db].
    eexists. split; [by apply getUserFavoriteThemes_ok |].
    apply elem_of_favoriteThemesWhereUserId.
    cbn [themeFavorited themes favoriteThemes row_id row_userId fst snd].
    rewrite lookup_alter_eq, Ht, elem_of_union, elem_of_singleton. auto.
  - intros p Hp Hrow. cbv zeta.
    rewrite (addUserFavoritePlugin_ok fails headersSentThrows Hok) by eauto.
    cbn [succeeded answered db].
    eexists. split; [by apply getUserFavoritePlugins_ok |].
    apply elem_of_favoritePluginsWhereUserId.
    cbn [pluginFavorited plugins favoritePlugins row_id row_userId fst snd].
    rewrite lookup_alter_eq, Hp, elem_of_union, elem_of_singleton. auto.
Qed.

(** X14. After a successful remove-favorite, the favorites listing of the
    same user has no row for that entity. *)
Theorem favorite_unlisted_after_remove
  (checkIsAdminUser : UserData → bool) (fails : DbOp → bool)
  (headersSentThrows : bool) (req : Request) (d : Db) :
  let u := user_id (userData req) in
  (∀ op, fails op = false) →
  mayFetch checkIsAdminUser req = true →
  ((u, params_themeId req) ∈ favoriteThemes d →
   let d' := db (run (removeUserFavoriteTheme fails headersSentThrows req) d) in
   ∃ rows,
     payload <$> delivered
       (run (getUserFavoriteThemes checkIsAdminUser fails headersSentThrows req) d')
     = Some (FavoriteThemesPayload rows)
     ∧ (∀ o, ((u, params_themeId req), o) ∉ rows))
  ∧ ((u, params_pluginId req) ∈ favoritePlugins d →
     let d' := db (run (removeUserFavoritePlugin fails headersSentThrows req) d) in
     ∃ rows,
       payload <$> delivered
         (run (getUserFavoritePlugins checkIsAdminUser fails headersSentThrows req) d')
       = Some (FavoritePluginsPayload rows)
       ∧ (∀ o, ((u, params_pluginId req), o) ∉ rows)).
Proof.
  intros u Hok Hallowed. subst u. split.
  - intros Hrow. cbv zeta.
    rewrite (removeUserFavoriteTheme_ok fails headersSentThrows Hok) by done.
    cbn [succeeded answered db].
    eexists. split; [by apply getUserFavoriteThemes_ok |].
    intros o. rewrite elem_of_favoriteThemesWhereUserId.
    cbn [themeUnfavorited favoriteThemes].
    rewrite elem_of_difference, elem_of_singleton.
    intros [[_ Hne] _]. by apply Hne.
  - intros Hrow. cbv zeta.
    rewrite (removeUserFavoritePlugin_ok fails headersSentThrows Hok) by done.
    cbn [succeeded answered db].
    eexists. split; [by apply getUserFavoritePlugins_ok |].
    intros o. rewrite elem_of_favoritePluginsWhereUserId.
    cbn [pluginUnfavorited favoritePlugins].
    rewrite elem_of_difference, elem_of_singleton.
    intros [[_ Hne] _]. by apply Hne.
Qed.

(** ** Two users, or two entities *)

Lemma insert_rows_commute (k1 k2 : FavoriteRow) (rows : gset FavoriteRow) :
  rows ∪ {[ k1 ]} ∪ {[ k2 ]} = rows ∪ {[ k2 ]} ∪ {[ k1 ]}.
Proof.
  apply set_eq. intros r. rewrite !elem_of_union, !elem_of_singleton. tauto.
Qed.

Lemma alter_same_commute {A} (f : A → A) (i j : string) (m : gmap string A) :
  alter f i (alter f j m) = alter f j (alter f i m).
Proof.
  destruct (decide (i = j)) as [-> | Hne]; [reflexivity |].
  by apply alter_alter_ne.
Qed.

Lemma themeFavorited_commute u1 id1 u2 id2 (d : Db) :
  themeFavorited u2 id2 (themeFavorited u1 id1 d)
  = themeFavorited u1 id1 (themeFavorited u2 id2 d).
Proof.
  unfold themeFavorited. cbn [themes favoriteThemes plugins favoritePlugins].
  by rewrite insert_rows_commute, alter_same_commute.
Qed.

Lemma pluginFavorited_commute u1 id1 u2 id2 (d : Db) :
  pluginFavorited u2 id2 (pluginFavorited u1 id1 d)
  = pluginFavorited u1 id1 (pluginFavorited u2 id2 d).
Proof.
  unfold pluginFavorited. cbn [themes favoriteThemes plugins favoritePlugins].
  by rewrite insert_rows_commute, alter_same_commute.
Qed.

(** X15. Two successful add-favorite requests for different (user, entity)
    pairs give the same database in either order; when they are for the same
    entity its counter is two higher. *)
Theorem add_favorites_commute
  (fails : DbOp → bool) (headersSentThrows : bool)
  (req1 req2 : Request) (d : Db) :
  let u1 := user_id (userData req1) in
  let u2 := user_id (userData req2) in
  (∀ op, fails op = false) →
  (let id1 := body_themeId req1 in
   let id2 := body_themeId req2 in
   (u1, id1) ≠ (u2, id2) →
   is_Some (themes d !! id1) → is_Some (themes d !! id2) →
   (u1, id1) ∉ favoriteThemes d → (u2, id2) ∉ favoriteThemes d →
   let d12 := db (run (addUserFavoriteTheme fails headersSentThrows req2)
                    (db (run (addUserFavoriteTheme fails headersSentThrows req1) d))) in
   let d21 := db (run (addUserFavoriteTheme fails headersSentThrows req1)
                    (db (run (addUserFavoriteTheme fails headersSentThrows req2) d))) in
   d12 = d21
   ∧ d12 = themeFavorited u2 id2 (themeFavorited u1 id1 d)
   ∧ (id1 = id2 →
      themes d12 !! id1 = themeIncrement 2 <$> themes d !! id1))
  ∧ (let id1 := body_pluginId req1 in
     let id2 := body_pluginId req2 in
     (u1, id1) ≠ (u2, id2) →
     is_Some (plugins d !! id1) → is_Some (plugins d !! id2) →
     (u1, id1) ∉ favoritePlugins d → (u2, id2) ∉ favoritePlugins d →
     let d12 := db (run (addUserFavoritePlugin fails headersSentThrows req2)
                      (db (run (addUserFavoritePlugin fails headersSentThrows req1) d))) in
     let d21 := db (run (addUserFavoritePlugin fails headersSentThrows req1)
                      (db (run (addUserFavoritePlugin fails headersSentThrows req2) d))) in
     d12 = d21
     ∧ d12 = pluginFavorited u2 id2 (pluginFavorited u1 id1 d)
     ∧ (id1 = id2 →
        plugins d12 !! id1 = pluginIncrement 2 <$> plugins d !! id1)).
Proof.
  intros u1 u2 Hok. subst u1 u2. split.
  - cbv zeta. intros Hne H1 H2 Hr1 Hr2.
    rewrite !(addUserFavoriteTheme_ok fails headersSentThrows Hok req1 d),
      !(addUserFavoriteTheme_ok fails headersSentThrows Hok req2 d) by done.
    cbn [succeeded answered db].
    rewrite !(addUserFavoriteTheme_ok fails headersSentThrows Hok).
    + cbn [succeeded answered db]. split; [apply themeFavorited_commute |].
      split; [reflexivity |]. intros <-.
      cbn [themeFavorited themes]. rewrite !lookup_alter_eq.
      destruct (themes d !! body_themeId req1) as [t |]; [| done].
      cbn. f_equal. destruct t. unfold themeIncrement. cbn. f_equal. lia.
    + cbn [themeFavorited themes]. rewrite lookup_alter. case_decide; [| done].
      by apply fmap_is_Some.
    + cbn [themeFavorited favoriteThemes].
      rewrite elem_of_union, elem_of_singleton. intros [? | ?]; congruence.
    + cbn [themeFavorited themes]. rewrite lookup_alter. case_decide; [| done].
      by apply fmap_is_Some.
    + cbn [themeFavorited favoriteThemes].
      rewrite elem_of_union, elem_of_singleton. intros [? | ?]; congruence.
  - cbv zeta. intros Hne H1 H2 Hr1 Hr2.
    rewrite !(addUserFavoritePlugin_ok fails headersSentThrows Hok req1 d),
      !(addUserFavoritePlugin_ok fails headersSentThrows Hok req2 d) by done.
    cbn [succeeded answered db].
    rewrite !(addUserFavoritePlugin_ok fails headersSentThrows Hok).
    + cbn [succeeded answered db]. split; [apply pluginFavorited_commute |].
      split; [reflexivity |]. intros <-.
      cbn [pluginFavorited plugins]. rewrite !lookup_alter_eq.
      destruct (plugins d !! body_pluginId req1) as [p |]; [| done].
      cbn. f_equal. destruct p. unfold pluginIncrement. cbn. f_equal. lia.
    + cbn [pluginFavorited plugins]. rewrite lookup_alter. case_decide; [| done].
      by apply fmap_is_Some.
    + cbn [pluginFavorited favoritePlugins].
      rewrite elem_of_union, elem_of_singleton. intros [? | ?]; congruence.
    + cbn [pluginFavorited plugins]. rewrite lookup_alter. case_decide; [| done].
      by apply fmap_is_Some.
    + cbn [pluginFavorited favoritePlugins].
      rewrite elem_of_union, elem_of_singleton. intros [? | ?]; congruence.
Qed.

(** ** Every request is answered *)

(** X16. Whatever fails, every handler answers: the response delivered by
    an add-favorite handler is 201, 404, 400 or 500, by a remove-favorite
    handler 200, 404 or 500; a favorite handler calls the response helpers
    three times at most, a fetch handler exactly once. *)
Theorem every_request_is_answered
  (checkIsAdminUser : UserData → bool) (fails : DbOp → bool)
  (headersSentThrows : bool) (req : Request) (d : Db) :
  let first (h : Handler unit) := status <$> delivered (run h d) in
  let calls (h : Handler unit) := length (res (run h d)) in
  (∃ s, first (addUserFavoriteTheme fails headersSentThrows req) = Some s
        ∧ s ∈ [201; 404; 400; 500])
  ∧ (∃ s, first (removeUserFavoriteTheme fails headersSentThrows req) = Some s
          ∧ s ∈ [200; 404; 500])
  ∧ (∃ s, first (addUserFavoritePlugin fails headersSentThrows req) = Some s
          ∧ s ∈ [201; 404; 400; 500])
  ∧ (∃ s, first (removeUserFavoritePlugin fails headersSentThrows req) = Some s
          ∧ s ∈ [200; 404; 500])
  ∧ (calls (addUserFavoriteTheme fails headersSentThrows req) ≤ 3
     ∧ calls (removeUserFavoriteTheme fails headersSentThrows req) ≤ 3
     ∧ calls (addUserFavoritePlugin fails headersSentThrows req) ≤ 3
     ∧ calls (removeUserFavoritePlugin fails headersSentThrows req) ≤ 3)%nat
  ∧ (calls (getUserProfile checkIsAdminUser headersSentThrows req) = 1
     ∧ calls (getUserThemes checkIsAdminUser fails headersSentThrows req) = 1
     ∧ calls (getUserFavoriteThemes checkIsAdminUser fails headersSentThrows req) = 1
     ∧ calls (getUserFavoritePlugins checkIsAdminUser fails headersSentThrows req) = 1)%nat.
Proof.
  destruct d as [th fth pl fpl]. cbv zeta.
  split; [split_handlers; eexists; (split; [reflexivity |]);
          repeat first [apply list_elem_of_here | apply list_elem_of_further] |].
  split; [split_handlers; eexists; (split; [reflexivity |]);
          repeat first [apply list_elem_of_here | apply list_elem_of_further] |].
  split; [split_handlers; eexists; (split; [reflexivity |]);
          repeat first [apply list_elem_of_here | apply list_elem_of_further] |].
  split; [split_handlers; eexists; (split; [reflexivity |]);
          repeat first [apply list_elem_of_here | apply list_elem_of_further] |].
  split.
  - repeat apply conj; split_handlers; cbn [length]; lia.
  - repeat apply conj; split_handlers; reflexivity.
Qed.

(** ** The further properties at sample inputs *)

Lemma noFailure_never (op : DbOp) : noFailure op = false.
Proof. reflexivity. Qed.

Lemma add_favorite_succeeds_witness :
  let wT := run (addUserFavoriteTheme noFailure true sampleRequest) sampleDb in
  let wP := run (addUserFavoritePlugin noFailure true sampleRequest) sampleDb in
  (statuses wT = [201]
   ∧ themes (db wT) !! "t1"%string = Some (sampleTheme 1))
  ∧ (statuses wP = [201]
     ∧ plugins (db wP) !! "p1"%string = Some (samplePlugin 1)).
Proof.
  cbv zeta.
  destruct (add_favorite_succeeds noFailure true sampleRequest sampleDb
              noFailure_never) as [HT HP].
  destruct (HT (sampleTheme 0)) as (H1 & _ & _ & H2);
    [reflexivity | apply not_elem_of_empty |].
  destruct (HP (samplePlugin 0)) as (H3 & _ & _ & H4);
    [reflexivity | apply not_elem_of_empty |].
  repeat split; assumption.
Defined.

Lemma remove_favorite_succeeds_witness :
  let wT := run (removeUserFavoriteTheme noFailure true sampleRequest) favoritedDb in
  let wP := run (removeUserFavoritePlugin noFailure true sampleRequest) favoritedDb in
  (statuses wT = [200]
   ∧ themes (db wT) !! "t1"%string = Some (sampleTheme 0))
  ∧ (statuses wP = [200]
     ∧ plugins (db wP) !! "p1"%string = Some (samplePlugin 0)).
Proof.
  cbv zeta.
  destruct (remove_favorite_succeeds noFailure true sampleRequest favoritedDb
              noFailure_never) as [HT HP].
  destruct HT as (H1 & _ & _ & H2); [compute_done |].
  destruct HP as (H3 & _ & _ & H4); [compute_done |].
  repeat split; assumption.
Defined.

Lemma add_then_remove_restores_witness :
  db (run (removeUserFavoriteTheme noFailure true sampleRequest)
        (db (run (addUserFavoriteTheme noFailure true sampleRequest) sampleDb)))
  = sampleDb
  ∧ db (run (removeUserFavoritePlugin noFailure true sampleRequest)
          (db (run (addUserFavoritePlugin noFailure true sampleRequest) sampleDb)))
    = sampleDb.
Proof.
  destruct (add_then_remove_restores noFailure true sampleRequest sampleRequest
              sampleDb noFailure_never eq_refl) as [HT HP].
  split.
  - apply HT; [reflexivity | by eexists | apply not_elem_of_empty].
  - apply HP; [reflexivity | by eexists | apply not_elem_of_empty].
Defined.

Lemma remove_then_add_restores_witness :
  db (run (addUserFavoriteTheme noFailure true sampleRequest)
        (db (run (removeUserFavoriteTheme noFailure true sampleRequest) favoritedDb)))
  = favoritedDb
  ∧ db (run (addUserFavoritePlugin noFailure true sampleRequest)
          (db (run (removeUserFavoritePlugin noFailure true sampleRequest) favoritedDb)))
    = favoritedDb.
Proof.
  destruct (remove_then_add_restores noFailure true sampleRequest sampleRequest
              favoritedDb noFailure_never eq_refl) as [HT HP].
  split.
  - apply HT; [reflexivity | by eexists | compute_done].
  - apply HP; [reflexivity | by eexists | compute_done].
Defined.

Lemma delivered_success_means_written_witness :
  let w := run (addUserFavoriteTheme noFailure true sampleRequest) sampleDb in
  status <$> delivered w = Some 201
  ∧ db w = themeFavorited "u1" "t1" sampleDb
  ∧ length (res w) = 1%nat.
Proof.
  cbv zeta.
  assert (Hd : status <$> delivered
                 (run (addUserFavoriteTheme noFailure true sampleRequest) sampleDb)
               = Some 201) by (vm_compute; reflexivity).
  destruct (delivered_success_means_written noFailure true sampleRequest sampleDb)
    as (HT & _).
  destruct (HT Hd) as (_ & _ & Hdb & Hlen).
  split; [exact Hd |]. split; [exact Hdb | exact Hlen].
Defined.

Lemma callback_error_then_success_helper_witness :
  statuses (run (addUserFavoriteTheme noFailure true sampleRequest) favoritedDb)
  = [400; 201; 500]
  ∧ statuses (run (removeUserFavoriteTheme noFailure false sampleRequest) sampleDb)
    = [404; 200].
Proof.
  destruct (callback_error_then_success_helper noFailure true sampleRequest
              favoritedDb eq_refl eq_refl eq_refl eq_refl) as (HA & _).
  destruct (callback_error_then_success_helper noFailure false sampleRequest
              sampleDb eq_refl eq_refl eq_refl eq_refl) as (_ & HR & _).
  split.
  - apply HA; [by eexists | compute_done].
  - apply HR. apply not_elem_of_empty.
Defined.

Lemma owner_or_admin_fetches_witness :
  let owner := withQuery sampleRequest (Some "u1"%string) in
  let admin := withQuery adminRequest (Some "u1"%string) in
  statuses (run (getUserFavoriteThemes roleIsAdmin noFailure true owner) favoritedDb)
  = [200]
  ∧ statuses (run (getUserFavoriteThemes roleIsAdmin noFailure true admin) favoritedDb)
    = [200].
Proof.
  cbv zeta.
  destruct (owner_or_admin_fetches roleIsAdmin noFailure true
              (withQuery sampleRequest (Some "u1"%string)) favoritedDb
              (or_introl eq_refl) eq_refl) as (_ & _ & H1 & _).
  destruct (owner_or_admin_fetches roleIsAdmin noFailure true
              (withQuery adminRequest (Some "u1"%string)) favoritedDb
              (or_intror eq_refl) eq_refl) as (_ & _ & H2 & _).
  rewrite H1, H2. split; reflexivity.
Defined.

Lemma serve_keeps_counts_witness :
  let calls :=
    [ mkCall AddUserFavoriteTheme sampleRequest noFailure;
      mkCall AddUserFavoriteTheme otherRequest noFailure;
      mkCall AddUserFavoritePlugin otherRequest commitFails;
      mkCall GetUserFavoriteThemes sampleRequest queryFails;
      mkCall RemoveUserFavoriteTheme sampleRequest noFailure ] in
  countsConsistent sampleDb
  ∧ countsConsistent (serve roleIsAdmin true calls sampleDb)
  ∧ countsNonNegative (serve roleIsAdmin true calls sampleDb).
Proof.
  cbv zeta. split; [exact sampleDb_consistent |].
  apply serve_keeps_counts. exact sampleDb_consistent.
Defined.

Lemma favorite_listed_after_add_witness :
  ∃ rows,
    payload <$> delivered
      (run (getUserFavoriteThemes roleIsAdmin noFailure true sampleRequest)
         (db (run (addUserFavoriteTheme noFailure true sampleRequest) sampleDb)))
    = Some (FavoriteThemesPayload rows)
    ∧ (("u1"%string, "t1"%string), Some (sampleTheme 1)) ∈ rows.
Proof.
  destruct (favorite_listed_after_add roleIsAdmin noFailure true sampleRequest
              sampleDb noFailure_never eq_refl) as [HT _].
  apply (HT (sampleTheme 0)); [reflexivity | apply not_elem_of_empty].
Defined.

Lemma favorite_unlisted_after_remove_witness :
  ∃ rows,
    payload <$> delivered
      (run (getUserFavoriteThemes roleIsAdmin noFailure true sampleRequest)
         (db (run (removeUserFavoriteTheme noFailure true sampleRequest) favoritedDb)))
    = Some (FavoriteThemesPayload rows)
    ∧ (∀ o, (("u1"%string, "t1"%string), o) ∉ rows).
Proof.
  destruct (favorite_unlisted_after_remove roleIsAdmin noFailure true sampleRequest
              favoritedDb noFailure_never eq_refl) as [HT _].
  apply HT. compute_done.
Defined.

Lemma add_favorites_commute_witness :
  let d12 := db (run (addUserFavoriteTheme noFailure true otherRequest)
                   (db (run (addUserFavoriteTheme noFailure true sampleRequest)
                          sampleDb))) in
  let d21 := db (run (addUserFavoriteTheme noFailure true sampleRequest)
                   (db (run (addUserFavoriteTheme noFailure true otherRequest)
                          sampleDb))) in
  d12 = d21 ∧ themes d12 !! "t1"%string = Some (sampleTheme 2).
Proof.
  cbv zeta.
  destruct (add_favorites_commute noFailure true sampleRequest otherRequest
              sampleDb noFailure_never) as [HT _].
  destruct HT as (Hsame & _ & Hcount);
    [ discriminate | by eexists | by eexists
    | apply not_elem_of_empty | apply not_elem_of_empty |].
  split; [exact Hsame |].
  etransitivity; [exact (Hcount eq_refl) | vm_compute; reflexivity].
Defined.
